(** * The persistent vector store of [app/vector_store.py]

    A shallow embedding of the class [FAISSVectorStore] together with the
    parts of its environment that its behaviour depends on: numpy arrays
    (buffers shared between views), Python lists (shared by reference), the
    file system holding the two persisted files, and the [faiss] flat L2
    index the class delegates to.

    Layout: scalar arithmetic, the state-and-exception monad, numpy, faiss,
    the file system, the class itself, the notions the properties are
    stated with, the endpoint [/search] of [app/main.py] that calls the
    class, then the properties. *)

From Stdlib Require Import ZArith List Reals Lra Lia SpecFloat String Ascii.
From stdpp Require Import base gmap strings list sorting.

(** ** Scalar arithmetic

    The store never computes on vector components itself; every arithmetic
    step happens inside the index library.  The model is therefore
    parametric in the arithmetic.  Two instances are given: IEEE binary32
    (what numpy's [float32] is), on which runs are evaluated, and the real
    numbers, on which the properties that need exact arithmetic are
    stated. *)

Class Arith (F : Type) := {
  f0 : F;
  f1 : F;
  fadd : F → F → F;
  fsub : F → F → F;
  fmul : F → F → F;
  fdiv : F → F → F;
  fsqrt : F → F;
  feqb : F → F → bool;
  fltb : F → F → bool;
  (** the distance the library reports in a result slot it could not fill *)
  fhuge : F
}.

(** IEEE 754 binary32: 24 bits of precision, exponents below 128. *)
Definition b32 (m e : Z) : spec_float := binary_normalize 24 128 m e false.

#[global] Instance binary32 : Arith spec_float := {|
  f0 := S754_zero false;
  f1 := b32 1 0;
  fadd := SFadd 24 128;
  fsub := SFsub 24 128;
  fmul := SFmul 24 128;
  fdiv := SFdiv 24 128;
  fsqrt := SFsqrt 24 128;
  feqb := SFeqb;
  fltb := SFltb;
  fhuge := SFmax_float 24 128
|}.

(** Exact arithmetic.  The reals have no largest element; [fhuge] is only
    ever written next to the label [-1], which the store skips. *)
#[global] Instance exact : Arith R := {|
  f0 := 0%R;
  f1 := 1%R;
  fadd := Rplus;
  fsub := Rminus;
  fmul := Rmult;
  fdiv := Rdiv;
  fsqrt := sqrt;
  feqb := λ x y, if Req_dec_T x y then true else false;
  fltb := λ x y, if Rlt_dec x y then true else false;
  fhuge := 0%R
|}.

(** ** Exceptions and state

    A Python call either returns a value or raises; in both cases the
    mutations it made before stay.  [M S A] is a computation on a state [S]
    that returns an [A] or raises. *)

Module py.

Inductive exn :=
| AssertionError
| IndexError
| ValueError
| FileNotFoundError
| JSONDecodeError
| RuntimeError
| AttributeError
| UnicodeDecodeError.

Inductive outcome (A : Type) :=
| Ok (a : A)
| Raise (e : exn).
Arguments Ok {A} a.
Arguments Raise {A} e.

Definition M (S A : Type) : Type := S → outcome A * S.

Definition ret {S A} (a : A) : M S A := λ s, (Ok a, s).

Definition bind {S A B} (m : M S A) (f : A → M S B) : M S B :=
  λ s, match m s with
       | (Ok a, s') => f a s'
       | (Raise e, s') => (Raise e, s')
       end.

Definition raise {S A} (e : exn) : M S A := λ s, (Raise e, s).

Definition gets {S A} (f : S → A) : M S A := λ s, (Ok (f s), s).

Definition modify {S} (f : S → S) : M S unit := λ s, (Ok tt, f s).

End py.

#[global] Instance M_ret S : MRet (py.M S) := @py.ret S.
#[global] Instance M_bind S : MBind (py.M S) := λ A B f m, py.bind m f.

(** ** numpy

    An [ndarray] object is a shape over a data buffer; [reshape] returns a
    new object over the same buffer.  Buffers live in the heap of the world
    (below) and are addressed by their position in it.  The arrays of the
    model are C-contiguous [float32] arrays of rank one or two, the two
    ranks [add] and [search] distinguish. *)

Module np.

Inductive shape :=
| Shape1 (n : nat)
| Shape2 (n d : nat).

Record ndarray := NdArray { data : nat; shp : shape }.

Definition size (sh : shape) : nat :=
  match sh with
  | Shape1 n => n
  | Shape2 n d => n * d
  end.

(** [len(a.shape)] *)
Definition ndim (a : ndarray) : nat :=
  match shp a with
  | Shape1 _ => 1
  | Shape2 _ _ => 2
  end.

(** [a.reshape(1, -1)]: one row holding every element, over the same
    buffer. *)
Definition reshape_1_m1 (a : ndarray) : ndarray :=
  {| data := data a; shp := Shape2 1 (size (shp a)) |}.

(** The rows of an [n]-by-[d] matrix stored row-major in buffer [b]. *)
Definition rows {F} (n d : nat) (b : list F) : list (list F) :=
  (λ i, take d (drop (i * d) b)) <$> seq 0 n.

End np.

(** ** The flat L2 index of faiss

    [faiss] is a native library outside the repository.  Its Python layer
    ([n, d = x.shape; assert d == self.d; assert k > 0]) and the contract of
    the exact index are modelled here; the numeric kernel follows the
    specification of the store, which describes what the index computes. *)

Module IndexFlatL2.
Section Kernel.
Context {F : Type} `{Arith F}.

(** An index of dimension [d] holding the vectors [xb] in id order; it owns
    its storage ([add] copies the rows it is given). *)
Record t := Index { d : nat; xb : list (list F) }.

Definition ntotal (ix : t) : Z := Z.of_nat (length (xb ix)).

(** Modelled from the spec: the Euclidean norm of a vector is the square
    root of the sum of the squares of its components. *)
Definition sum_sq (x : list F) : F :=
  foldl (λ acc xi, fadd acc (fmul xi xi)) f0 x.

(** Modelled from the spec: the kernel of [faiss.normalize_L2] on one row.
    "L2-normalizes the vector (divide by its Euclidean norm; if the norm is
    zero, normalization is a no-op)". *)
Definition renorm (x : list F) : list F :=
  let n := fsqrt (sum_sq x) in
  if feqb n f0 then x else (λ xi, fdiv xi n) <$> x.

(** Modelled from the spec: the squared Euclidean distance of the index
    ("computes squared Euclidean distance from the normalized query to every
    stored normalized vector"). *)
Definition L2sqr (x y : list F) : F :=
  foldl (λ acc p, fadd acc (fmul (fsub p.1 p.2) (fsub p.1 p.2))) f0 (zip x y).

(** Modelled from the spec: the order of the results of the index.  A
    (distance, id) pair comes before another when its distance is smaller,
    or the distances are equal and its id is lower ("ties broken by
    ascending id"). *)
Definition closer (a b : F * Z) : bool :=
  fltb a.1 b.1 || (feqb a.1 b.1 && (a.2 <? b.2)%Z).

Fixpoint insert_closer (p : F * Z) (l : list (F * Z)) : list (F * Z) :=
  match l with
  | [] => [p]
  | q :: l' => if closer p q then p :: q :: l' else q :: insert_closer p l'
  end.

Definition sort_closer (l : list (F * Z)) : list (F * Z) :=
  foldr insert_closer [] l.

(** Every stored vector with its distance to the query and its id. *)
Definition scored (q : list F) (xb : list (list F)) : list (F * Z) :=
  imap (λ i y, (L2sqr q y, Z.of_nat i)) xb.

(** Modelled from the spec: one row of the result of the index's search,
    "selects the [k] smallest, ties broken by ascending id", in "ascending
    distance (closest first)".  The library returns exactly [k] slots per
    query and marks the slots it could not fill with the label [-1]. *)
Definition knn (xb : list (list F)) (q : list F) (k : nat) : list (F * Z) :=
  let best := take k (sort_closer (scored q xb)) in
  best ++ replicate (k - length best) (fhuge, (-1)%Z).

(** [faiss.IndexFlatL2(d)] *)
Definition new (dim : nat) : t := {| d := dim; xb := [] |}.

(** [index.add(x)] on an array given by its shape and contents.
    [n, d = x.shape; assert d == self.d], then the rows are appended. *)
Definition add (ix : t) (x : np.shape * list F) : py.outcome t :=
  match x.1 with
  | np.Shape1 _ => py.Raise py.ValueError
  | np.Shape2 n d' =>
      if decide (d' = d ix)
      then py.Ok {| d := d ix; xb := xb ix ++ np.rows n d' x.2 |}
      else py.Raise py.AssertionError
  end.

(** [index.search(x, k)]: [n, d = x.shape; assert d == self.d;
    assert k > 0]; returns the matrices of distances and of labels, one row
    per query. *)
Definition search (ix : t) (x : np.shape * list F) (k : Z)
  : py.outcome (list (list F) * list (list Z)) :=
  match x.1 with
  | np.Shape1 _ => py.Raise py.ValueError
  | np.Shape2 n d' =>
      if decide (d' = d ix)
      then if (0 <? k)%Z
           then let res := (λ q, knn (xb ix) q (Z.to_nat k)) <$> np.rows n d' x.2 in
                py.Ok (fmap fst <$> res, fmap snd <$> res)
           else py.Raise py.AssertionError
      else py.Raise py.AssertionError
  end.

End Kernel.
Arguments t F : clear implicits.
End IndexFlatL2.

(** ** The world outside the store object

    The files at the paths the store uses, the buffers of all numpy arrays
    and the contents of all Python lists of segments.  A reference to a
    buffer or a list is its position in the heap; an object is allocated at
    the end and never freed. *)

Section World.
Context {F : Type}.

(** One time-aligned segment: [{"timestamp": [start, end], "text": ...}]. *)
Record chunk := Chunk { timestamp : F * F; chunk_text : string }.

(** A metadata record as the JSON document holds it. *)
Record disk_entry := DiskEntry {
  de_text : string;
  de_audio_path : string;
  de_chunks : list chunk
}.

(** What a file holds, by what the code that reads it does with it.

    - [IndexFile]: an index written by [faiss.write_index].
    - [JsonFile]: a JSON object whose member [next_id], when it is there, is
      an integer, and whose member [metadata], when it is there, is an
      object of records under keys that [int()] accepts.  The keys are
      given by the integers [int()] makes of them, in document order; two
      keys of the document can give the same integer.
    - [JsonKeysFile]: a JSON object whose member [metadata] is an object
      with a key that [int()] rejects.
    - [JsonMembersFile]: a JSON object whose member [metadata] is there and
      is not an object (a list, a string, a number, [true], [false] or
      [null]).
    - [JsonValueFile]: a JSON document that is not an object.
    - [TextFile]: text in UTF-8 that is not a JSON document.
    - [OtherFile]: bytes that are not text in UTF-8.

    The store is typed: a JSON object whose [next_id] is not an integer, or
    whose records are not of the form [_save_metadata] writes, is none of
    these, and the properties say nothing of it. *)
Inductive file :=
| IndexFile (ix : IndexFlatL2.t F)
| JsonFile (next_id : option Z) (metadata : option (list (Z * disk_entry)))
| JsonKeysFile (next_id : option Z)
| JsonMembersFile (next_id : option Z)
| JsonValueFile
| TextFile
| OtherFile.

Record world := World {
  files : gmap string file;
  arrays : list (list F);
  lists : list (list chunk)
}.

Definition set_files (f : gmap string file → gmap string file) (w : world) : world :=
  {| files := f (files w); arrays := arrays w; lists := lists w |}.

Definition set_arrays (f : list (list F) → list (list F)) (w : world) : world :=
  {| files := files w; arrays := f (arrays w); lists := lists w |}.

(** The contents of the buffer of an array, and of a list object.  A
    reference always designates a live object in Python; a position outside
    the heap reads as empty here, a case no run reaches. *)
Definition buffer (w : world) (a : np.ndarray) : list F := arrays w !!! np.data a.

Definition list_at (w : world) (l : nat) : list chunk := lists w !!! l.

(** Allocation of a list object. *)
Definition new_list (c : list chunk) : py.M world nat :=
  λ w, (py.Ok (length (lists w)),
        {| files := files w; arrays := arrays w; lists := lists w ++ [c] |}).

(** [l.append(c)] on a list object. *)
Definition list_append (l : nat) (c : chunk) : py.M world unit :=
  py.modify (λ w, {| files := files w; arrays := arrays w;
                     lists := <[l := list_at w l ++ [c]]> (lists w) |}).

(** [a.astype('float32')]: a fresh copy, passed by value here. *)
Definition astype_float32 (a : np.ndarray) : py.M world (np.shape * list F) :=
  py.gets (λ w, (np.shp a, buffer w a)).

End World.
Arguments chunk F : clear implicits.
Arguments disk_entry F : clear implicits.
Arguments file F : clear implicits.
Arguments world F : clear implicits.

Module faiss.
Section Api.
Context {F : Type} `{Arith F}.

(** [faiss.normalize_L2(x)]: [fvec_renorm_L2(x.shape[1], x.shape[0], x)],
    every row of the matrix is normalised in the buffer of [x]. *)
Definition normalize_L2 (x : np.ndarray) : py.M (world F) unit :=
  match np.shp x with
  | np.Shape1 _ => py.raise py.IndexError
  | np.Shape2 n d =>
      py.modify (λ w, set_arrays
        (λ h, <[np.data x := concat (IndexFlatL2.renorm <$> np.rows n d (buffer w x))]> h) w)
  end.

(** Modelled from the spec: [faiss.write_index(index, path)].  "The on-disk
    representation must losslessly round-trip: dimension, all stored
    normalized vectors in id order, and the current count": the file holds
    the index. *)
Definition write_index (ix : IndexFlatL2.t F) (path : string) : py.M (world F) unit :=
  py.modify (set_files (λ fs, <[path := IndexFile ix]> fs)).

(** Modelled from the spec: [faiss.read_index(path)], the index a file
    written by [write_index] holds; the library raises on a file that is
    anything else or is not there. *)
Definition read_index (path : string) : py.M (world F) (IndexFlatL2.t F) :=
  λ w, match files w !! path with
       | Some (IndexFile ix) => (py.Ok ix, w)
       | _ => (py.Raise py.RuntimeError, w)
       end.

End Api.
End faiss.

(** ** os and os.path (POSIX)

    The platform is POSIX: [os.path] is [posixpath], the only separator is
    [/].  On Windows [os.path] is [ntpath], which also splits a path at a
    backslash and after a drive letter; that platform is not modelled, and
    nothing here is said of it.

    Directories are not tracked: [os.makedirs(name, exist_ok=True)] succeeds
    except on the empty name, on which it raises [FileNotFoundError]
    whatever the state of the disk; reading and writing a file at a path
    succeed (no permission or capacity failures). *)

Module os.
Section Os.
Context {F : Type}.

Definition sep : ascii := "/"%char.

(** [p[:p.rfind('/') + 1]] *)
Fixpoint head (p : string) : string :=
  match p with
  | EmptyString => EmptyString
  | String c r =>
      match head r with
      | EmptyString => if Ascii.eqb c sep then String c EmptyString else EmptyString
      | h => String c h
      end
  end.

(** [s == '/' * len(s)] *)
Fixpoint all_sep (s : string) : bool :=
  match s with
  | EmptyString => true
  | String c r => Ascii.eqb c sep && all_sep r
  end.

(** [s.rstrip('/')] *)
Fixpoint rstrip_sep (s : string) : string :=
  match s with
  | EmptyString => EmptyString
  | String c r =>
      match rstrip_sep r with
      | EmptyString => if Ascii.eqb c sep then EmptyString else String c EmptyString
      | r' => String c r'
      end
  end.

(** [os.path.dirname(p)] *)
Definition dirname (p : string) : string :=
  let h := head p in
  if all_sep h then h else rstrip_sep h.

(** [os.path.exists(path)] *)
Definition path_exists (path : string) : py.M (world F) bool :=
  py.gets (λ w, bool_decide (is_Some (files w !! path))).

(** [os.makedirs(name, exist_ok=True)] *)
Definition makedirs (name : string) : py.M (world F) unit :=
  match name with
  | EmptyString => py.raise py.FileNotFoundError
  | _ => py.ret tt
  end.

End Os.
End os.

(** ** json *)

Module json.
Section Json.
Context {F : Type}.

(** The value [json.load] returns, as far as [_load_metadata] looks into
    it: an object with its members [next_id] and [metadata], the latter an
    object with keys for [int()], an object with a key [int()] rejects, or
    another value; or a document that is not an object. *)
Inductive document :=
| Object (next_id : option Z) (metadata : option (list (Z * disk_entry F)))
| ObjectKeys (next_id : option Z)
| ObjectMembers (next_id : option Z)
| NotObject.

(** [json.load(f)] of the file at [path], opened for reading in UTF-8.
    Bytes that are not UTF-8 make the text decoder raise
    [UnicodeDecodeError], text that is not JSON makes the parser raise
    [JSONDecodeError].  Of the bytes of an index file one of the two is
    raised, which one depends on the bytes; both are subclasses of
    [ValueError], and [ValueError] stands for either here.  The objects the
    parser allocates for a document that is then not used are unreachable
    and not counted. *)
Definition load (path : string) : py.M (world F) document :=
  λ w, match files w !! path with
       | Some (JsonFile n m) => (py.Ok (Object n m), w)
       | Some (JsonKeysFile n) => (py.Ok (ObjectKeys n), w)
       | Some (JsonMembersFile n) => (py.Ok (ObjectMembers n), w)
       | Some JsonValueFile => (py.Ok NotObject, w)
       | Some TextFile => (py.Raise py.JSONDecodeError, w)
       | Some OtherFile => (py.Raise py.UnicodeDecodeError, w)
       | Some (IndexFile _) => (py.Raise py.ValueError, w)
       | None => (py.Raise py.FileNotFoundError, w)
       end.

(** [json.dump({"next_id": n, "metadata": m}, f)] into the file at [path],
    opened for writing. *)
Definition dump (n : Z) (m : list (Z * disk_entry F)) (path : string)
  : py.M (world F) unit :=
  py.modify (set_files (λ fs, <[path := JsonFile (Some n) (Some m)]> fs)).

End Json.
End json.

(** ** The class [FAISSVectorStore] *)

Module FAISSVectorStore.
Section Class.
Context {F : Type} `{Arith F}.

(** A value of [self.metadata]: the dict [{"text", "audio_path", "chunks"}];
    [chunks] refers to a list object. *)
Record entry := Entry { text : string; audio_path : string; chunks : nat }.

(** The attributes of [self]. *)
Record t := Store {
  dimension : nat;
  index_path : string;
  metadata_path : string;
  metadata : gmap Z entry;
  next_id : Z;
  index : IndexFlatL2.t F
}.

(** One element of the list [search] returns. *)
Record result := Result {
  id : Z;
  distance : F;
  similarity_score : F;
  res_text : string;
  res_audio_path : string;
  res_chunks : nat
}.

Record stats := Stats {
  total_vectors : Z;
  stats_dimension : nat;
  stats_index_path : string
}.

(** A method runs on [self] and the world. *)
Definition state : Type := t * world F.

Definition on_world {A} (m : py.M (world F) A) : py.M state A :=
  λ st, let r := m st.2 in (r.1, (st.1, r.2)).

Definition self_get {A} (f : t → A) : py.M state A := py.gets (λ st, f st.1).

Definition self_set (f : t → t) : py.M state unit := py.modify (λ st, (f st.1, st.2)).

Definition lift {S A} (o : py.outcome A) : py.M S A := λ s, (o, s).

Definition set_index (ix : IndexFlatL2.t F) (s : t) : t :=
  {| dimension := dimension s; index_path := index_path s;
     metadata_path := metadata_path s; metadata := metadata s;
     next_id := next_id s; index := ix |}.

Definition set_metadata (m : gmap Z entry) (s : t) : t :=
  {| dimension := dimension s; index_path := index_path s;
     metadata_path := metadata_path s; metadata := m;
     next_id := next_id s; index := index s |}.

Definition set_next_id (n : Z) (s : t) : t :=
  {| dimension := dimension s; index_path := index_path s;
     metadata_path := metadata_path s; metadata := metadata s;
     next_id := n; index := index s |}.

(** The JSON form of [self.metadata]: every record with the contents its
    list of segments has at this moment.  Python writes the records in the
    order they were inserted; nothing depends on the order, which is that of
    [map_to_list] here. *)
Definition to_disk (w : world F) (m : gmap Z entry) : list (Z * disk_entry F) :=
  (λ p, (p.1, DiskEntry (text p.2) (audio_path p.2) (list_at w (chunks p.2))))
    <$> map_to_list m.

(** [_save_index] *)
Definition _save_index : py.M state unit :=
  λ st, on_world (faiss.write_index (index st.1) (index_path st.1)) st.

(** [_save_metadata] *)
Definition _save_metadata : py.M state unit :=
  λ st, on_world (json.dump (next_id st.1) (to_disk st.2 (metadata st.1))
                            (metadata_path st.1)) st.

(** The dict comprehension of [_load_metadata],
    [{int(k): v for k, v in ....items()}]: the parser has allocated a list
    object for the segments of every record; a later key overwrites an
    earlier equal one. *)
Fixpoint from_disk (l : list (Z * disk_entry F)) (m : gmap Z entry)
  : py.M (world F) (gmap Z entry) :=
  match l with
  | [] => mret m
  | (k, v) :: l' =>
      c ← new_list (de_chunks v);
      from_disk l' (<[k := Entry (de_text v) (de_audio_path v) c]> m)
  end.

(** [_load_metadata].  [data.get("next_id", 0)] raises [AttributeError]
    on a document that is not an object.  [next_id] is assigned before the
    member [metadata] is read, on which [.items()] raises [AttributeError]
    when it is not an object and [int(k)] raises [ValueError] on a key that
    is not an integer. *)
Definition _load_metadata : py.M state unit :=
  path ← self_get metadata_path;
  e ← on_world (os.path_exists path);
  if (e : bool) then
    data ← on_world (json.load path);
    match data with
    | json.NotObject => py.raise py.AttributeError
    | json.Object n md =>
        self_set (set_next_id (default 0%Z n));;
        m ← on_world (from_disk (default [] md) ∅);
        self_set (set_metadata m)
    | json.ObjectMembers n =>
        self_set (set_next_id (default 0%Z n));;
        py.raise py.AttributeError
    | json.ObjectKeys n =>
        self_set (set_next_id (default 0%Z n));;
        py.raise py.ValueError
    end
  else
    self_set (set_metadata ∅);;
    self_set (set_next_id 0).

(** The rest of a constructor: a method run on the object under
    construction; the object is the result. *)
Definition construct (self : t) (m : py.M state unit) : py.M (world F) t :=
  λ w, let r := m (self, w) in
       (match r.1 with py.Ok _ => py.Ok r.2.1 | py.Raise e => py.Raise e end, r.2.2).

(** [__init__] *)
Definition __init__ (dimension : nat) (index_path metadata_path : string)
  : py.M (world F) t :=
  let self := Store dimension index_path metadata_path ∅ 0 in
  os.makedirs (os.dirname index_path);;
  e ← os.path_exists index_path;
  if (e : bool) then
    ix ← faiss.read_index index_path;
    construct (self ix) _load_metadata
  else
    construct (self (IndexFlatL2.new dimension)) _save_metadata.

(** [chunks or []] *)
Definition chunks_or_empty (chunks : option nat) : py.M (world F) nat :=
  match chunks with
  | None => new_list []
  | Some l => λ w, match list_at w l with
                   | [] => new_list [] w
                   | _ :: _ => (py.Ok l, w)
                   end
  end.

(** [add] *)
Definition add (embedding : np.ndarray) (text audio_path : string)
    (chunks : option nat) : py.M state Z :=
  let embedding :=
    if decide (np.ndim embedding = 1) then np.reshape_1_m1 embedding else embedding in
  on_world (faiss.normalize_L2 embedding);;
  x ← on_world (astype_float32 embedding);
  ix ← self_get index;
  ix' ← lift (IndexFlatL2.add ix x);
  self_set (set_index ix');;
  vector_id ← self_get next_id;
  c ← on_world (chunks_or_empty chunks);
  self_set (λ s, set_metadata (<[vector_id := Entry text audio_path c]> (metadata s)) s);;
  self_set (λ s, set_next_id (next_id s + 1) s);;
  _save_index;;
  _save_metadata;;
  mret vector_id.

(** The body of the loop of [search] for a label other than [-1]. *)
Definition format_result (md : gmap Z entry) (dist : F) (idx : Z)
  : py.M (world F) result :=
  let sim := fdiv f1 (fadd f1 dist) in
  match md !! idx with
  | Some e => mret (Result idx dist sim (text e) (audio_path e) (chunks e))
  | None => c ← new_list []; mret (Result idx dist sim "" "" c)
  end.

(** The loop of [search] over [zip(distances[0], indices[0])]. *)
Fixpoint format_results (md : gmap Z entry) (l : list (F * Z))
  : py.M (world F) (list result) :=
  match l with
  | [] => mret []
  | (dist, idx) :: l' =>
      if decide (idx = (-1)%Z) then format_results md l'
      else r ← format_result md dist idx;
           rs ← format_results md l';
           mret (r :: rs)
  end.

(** [a[0]] on a matrix given by its rows. *)
Definition row0 {A S} (a : list (list A)) : py.M S (list A) :=
  match a with
  | [] => py.raise py.IndexError
  | r :: _ => mret r
  end.

(** [search] *)
Definition search (query_embedding : np.ndarray) (k : Z) : py.M state (list result) :=
  let query_embedding :=
    if decide (np.ndim query_embedding = 1)
    then np.reshape_1_m1 query_embedding else query_embedding in
  on_world (faiss.normalize_L2 query_embedding);;
  ix ← self_get index;
  let k := Z.min k (IndexFlatL2.ntotal ix) in
  if decide (k = 0%Z) then mret []
  else
    x ← on_world (astype_float32 query_embedding);
    di ← lift (IndexFlatL2.search ix x k);
    d0 ← row0 di.1;
    i0 ← row0 di.2;
    md ← self_get metadata;
    on_world (format_results md (zip d0 i0)).

(** [get_stats] *)
Definition get_stats (self : t) : stats :=
  Stats (IndexFlatL2.ntotal (index self)) (dimension self) (index_path self).

End Class.
Arguments t F : clear implicits.
Arguments result F : clear implicits.
Arguments state F : clear implicits.
End FAISSVectorStore.

(** * Notions the properties are stated with *)

Section Notions.
Context {F : Type} `{Arith F}.
Import FAISSVectorStore.

(** The matrix [add] and [search] hand to the library: a vector is viewed
    as a single row, a matrix is passed as it is. *)
Definition as_matrix (a : np.ndarray) : nat * nat :=
  match np.shp a with
  | np.Shape1 n => (1, n)
  | np.Shape2 n d => (n, d)
  end.

(** The world after [faiss.normalize_L2] ran on the buffer of [a]. *)
Definition renormed (w : world F) (a : np.ndarray) : world F :=
  set_arrays (λ h, <[np.data a :=
    concat (IndexFlatL2.renorm <$> np.rows (as_matrix a).1 (as_matrix a).2 (buffer w a))]> h) w.

(** The list object [chunks or []] evaluates to, and the world after. *)
Definition chunks_ref (ch : option nat) (w : world F) : nat :=
  match ch with
  | None => length (lists w)
  | Some l => match list_at w l with [] => length (lists w) | _ :: _ => l end
  end.

Definition chunks_world (ch : option nat) (w : world F) : world F :=
  match ch with
  | None => World (files w) (arrays w) (lists w ++ [[]])
  | Some l => match list_at w l with
              | [] => World (files w) (arrays w) (lists w ++ [[]])
              | _ :: _ => w
              end
  end.

(** The store and the world after a successful [add]. *)
Definition added (s : t F) (w : world F) (a : np.ndarray)
    (tx ap : string) (ch : option nat) : state F :=
  let w1 := renormed w a in
  let ix' := IndexFlatL2.Index (IndexFlatL2.d (index s))
               (IndexFlatL2.xb (index s)
                  ++ np.rows (as_matrix a).1 (as_matrix a).2 (buffer w1 a)) in
  let w2 := chunks_world ch w1 in
  let md' := <[next_id s := Entry tx ap (chunks_ref ch w1)]> (metadata s) in
  (Store (dimension s) (index_path s) (metadata_path s) md' (next_id s + 1) ix',
   set_files (λ fs, <[metadata_path s := JsonFile (Some (next_id s + 1)%Z)
                                           (Some (to_disk w2 md'))]>
                      (<[index_path s := IndexFile ix']> fs)) w2).

(** The element the loop of [search] appends for a label, and the world
    after: a label without a record gets a fresh empty list. *)
Definition result_of (md : gmap Z entry) (dist : F) (idx : Z) (w : world F)
  : result F :=
  let sim := fdiv f1 (fadd f1 dist) in
  match md !! idx with
  | Some e => Result idx dist sim (text e) (audio_path e) (chunks e)
  | None => Result idx dist sim "" "" (length (lists w))
  end.

Definition result_world (md : gmap Z entry) (idx : Z) (w : world F) : world F :=
  match md !! idx with
  | Some _ => w
  | None => World (files w) (arrays w) (lists w ++ [[]])
  end.

(** The list the loop of [search] builds, and the world after. *)
Fixpoint formatted_list (md : gmap Z entry) (l : list (F * Z)) (w : world F)
  : list (result F) * world F :=
  match l with
  | [] => ([], w)
  | (dist, idx) :: l' =>
      if decide (idx = (-1)%Z) then formatted_list md l' w
      else let rw := formatted_list md l' (result_world md idx w) in
           (result_of md dist idx w :: rw.1, rw.2)
  end.

(** The result of [search] once the library has answered: the loop run on
    the row of the first query. *)
Definition formatted (s : t F) (w : world F) (q : list F) (k : Z)
  : py.outcome (list (result F)) * state F :=
  let rw := formatted_list (metadata s)
              (IndexFlatL2.knn (IndexFlatL2.xb (index s)) q (Z.to_nat k)) w in
  (py.Ok rw.1, (s, rw.2)).

(** The map [from_disk] builds and the list objects it allocates. *)
Fixpoint from_disk_map (l : list (Z * disk_entry F)) (m : gmap Z entry) (n : nat)
  : gmap Z entry :=
  match l with
  | [] => m
  | (k, v) :: l' =>
      from_disk_map l' (<[k := Entry (de_text v) (de_audio_path v) n]> m) (S n)
  end.

(** The ids of the vectors an index holds: [0 .. ntotal - 1]. *)
Definition index_ids (ix : IndexFlatL2.t F) : gset Z :=
  list_to_set (Z.of_nat <$> seq 0 (length (IndexFlatL2.xb ix))).

(** The ids with a metadata record are the ids of the stored vectors. *)
Definition ids_agree (s : t F) : Prop :=
  dom (metadata s) = index_ids (index s).

(** An embedding that denotes one vector: a vector, or a matrix of one
    row. *)
Definition single_vector (a : np.ndarray) : Prop := (as_matrix a).1 = 1.

(** The states a program reaches that creates a store on paths [ip] and
    [mp] where no index file is yet, calls [add] with single vectors and
    [search], constructs the store again from what is on disk, and does
    what it likes to the arrays and lists it holds, but leaves the files to
    the store. *)
Inductive reachable (ip mp : string) : t F → world F → Prop :=
| reach_create dim w s w' :
    files w !! ip = None →
    __init__ dim ip mp w = (py.Ok s, w') →
    reachable ip mp s w'
| reach_reopen dim s w s' w' :
    reachable ip mp s w →
    __init__ dim ip mp w = (py.Ok s', w') →
    reachable ip mp s' w'
| reach_add s w a tx ap ch r s' w' :
    reachable ip mp s w →
    single_vector a →
    add a tx ap ch (s, w) = (r, (s', w')) →
    reachable ip mp s' w'
| reach_search s w a k r s' w' :
    reachable ip mp s w →
    search a k (s, w) = (r, (s', w')) →
    reachable ip mp s' w'
| reach_caller s w w' :
    reachable ip mp s w →
    files w' = files w →
    reachable ip mp s w'.

(** What holds in every reachable state: memory and disk agree with each
    other and on the ids. *)
Definition consistent (ip mp : string) (s : t F) (w : world F) : Prop :=
  index_path s = ip ∧ metadata_path s = mp ∧
  ids_agree s ∧ next_id s = IndexFlatL2.ntotal (index s) ∧
  (files w !! ip = Some (IndexFile (index s))
   ∨ (files w !! ip = None ∧ IndexFlatL2.xb (index s) = [])) ∧
  ∃ l, files w !! mp = Some (JsonFile (Some (next_id s)) (Some l))
       ∧ list_to_set l.*1 = dom (metadata s).

(** The two saves [add] ends with. *)
Definition persist : py.M (state F) unit := _save_index;; _save_metadata.

(** The arguments of one call of [add]. *)
Record add_call := AddCall {
  call_embedding : np.ndarray;
  call_text : string;
  call_audio_path : string;
  call_chunks : option nat
}.

(** [add] called on each of [calls] in turn; the ids it returned. *)
Fixpoint add_all (calls : list add_call) : py.M (state F) (list Z) :=
  match calls with
  | [] => mret []
  | c :: rest =>
      i ← add (call_embedding c) (call_text c) (call_audio_path c) (call_chunks c);
      js ← add_all rest;
      mret (i :: js)
  end.

(** The array [v] is live in [w] and its buffer holds [b]. *)
Definition holds (w : world F) (v : np.ndarray) (b : list F) : Prop :=
  arrays w !! np.data v = Some b ∧ length b = np.size (np.shp v).

(** The (distance, id) pair of a result. *)
Definition pair_of (r : result F) : F * Z := (distance r, id r).

(** [a] comes before [b] in the results. *)
Definition comes_before (a b : F * Z) : Prop := IndexFlatL2.closer a b = true.

End Notions.

(** The result [a] is nearer than [b]: at a smaller distance, or at the
    same distance with the lower id. *)
Definition nearer (a b : R * Z) : Prop :=
  (a.1 < b.1)%R ∨ (a.1 = b.1 ∧ (a.2 < b.2)%Z).


(** * The endpoint [/search] of [app/main.py]

    The endpoint runs on the global [vector_store].  What it calls outside
    the store is given to it here: [str.strip], [str] on an exception, the
    embedder, and the rendering of the answer by [JSONResponse], which like
    the embedder may raise. *)

Module main.
Section Endpoints.
Context {F : Type} `{Arith F}.

(** What the body of the endpoint can raise: an exception of Python or of a
    library, or the [HTTPException] of fastapi.  Both are instances of
    [Exception]. *)
Inductive exception :=
| PyException (e : py.exn)
| HTTPException (status_code : Z) (detail : string).

Inductive reply (A : Type) :=
| Return (a : A)
| Raised (e : exception).
#[global] Arguments Return {A} a.
#[global] Arguments Raised {A} e.

(** The dict handed to [JSONResponse]. *)
Record content := Content {
  success : bool;
  query : string;
  num_results : nat;
  results : list (FAISSVectorStore.result F)
}.

Variable strip : string → string.
Variable str : exception → string.
Variable embed : string → py.M (world F) np.ndarray.
Variable Response : Type.
Variable JSONResponse : content → py.M (world F) Response.

(** The body of the [try]. *)
Definition search_body (q : string) (k : Z) (st : FAISSVectorStore.state F)
    : reply Response * FAISSVectorStore.state F :=
  if bool_decide (q = "") || bool_decide (String.length (strip q) = 0)
  then (Raised (HTTPException 400 "Query cannot be empty"), st)
  else
    match embed q st.2 with
    | (py.Raise e, w) => (Raised (PyException e), (st.1, w))
    | (py.Ok query_embedding, w) =>
        match FAISSVectorStore.search query_embedding k (st.1, w) with
        | (py.Raise e, st') => (Raised (PyException e), st')
        | (py.Ok results, st') =>
            match JSONResponse (Content true q (length results) results) st'.2 with
            | (py.Raise e, w') => (Raised (PyException e), (st'.1, w'))
            | (py.Ok r, w') => (Return r, (st'.1, w'))
            end
        end
    end.

(** [search]: the body under [except Exception as e], which raises
    [HTTPException(status_code=500, detail=str(e))]. *)
Definition search (q : string) (k : Z) (st : FAISSVectorStore.state F)
    : reply Response * FAISSVectorStore.state F :=
  match search_body q k st with
  | (Return r, st') => (Return r, st')
  | (Raised e, st') => (Raised (HTTPException 500 (str e)), st')
  end.

End Endpoints.
End main.

(** ** Sample data

    A world in binary32 with three arrays (a vector of two components, a
    vector of three and a two-by-two matrix) and one list of segments, and
    the store [__init__] creates in it for dimension two; two disks that
    hold files already; and a store in exact arithmetic. *)

Definition ex_index_path : string := "data/faiss.index".

Definition ex_metadata_path : string := "data/metadata.json".

Definition ex_zero : spec_float := S754_zero false.

Definition ex_one : spec_float := b32 1 0.

Definition ex_two : spec_float := b32 2 0.

Definition ex_chunk : chunk spec_float := Chunk (ex_zero, ex_one) "hello".

Definition ex_world : world spec_float :=
  World ∅
    [[ex_two; ex_zero]; [ex_one; ex_zero; ex_zero]; [ex_one; ex_zero; ex_zero; ex_one]]
    [[ex_chunk]].

Definition ex_vec2 : np.ndarray := np.NdArray 0 (np.Shape1 2).

Definition ex_vec3 : np.ndarray := np.NdArray 1 (np.Shape1 3).

Definition ex_mat : np.ndarray := np.NdArray 2 (np.Shape2 2 2).

Definition ex_store : FAISSVectorStore.t spec_float :=
  FAISSVectorStore.Store 2 ex_index_path ex_metadata_path ∅ 0 (IndexFlatL2.new 2).

(** The world once [ex_store] is constructed: the metadata file is there. *)
Definition ex_created : world spec_float :=
  (FAISSVectorStore.__init__ 2 ex_index_path ex_metadata_path ex_world).2.

(** A disk with an index file of dimension four and nothing else. *)
Definition ex_disk_dim4 : world spec_float :=
  World {[ ex_index_path := IndexFile (IndexFlatL2.Index 4 []) ]} [] [].

(** A disk whose index file holds two vectors and whose metadata document
    says [next_id = 0] and has no record. *)
Definition ex_index_two : IndexFlatL2.t spec_float :=
  IndexFlatL2.Index 2 [[ex_one; ex_zero]; [ex_zero; ex_one]].

Definition ex_disk_diverged : world spec_float :=
  World (<[ ex_metadata_path := JsonFile (Some 0%Z) (Some []) ]>
           {[ ex_index_path := IndexFile ex_index_two ]}) [] [].


(** A disk whose metadata file holds the JSON document [[]]. *)
Definition ex_disk_list : world spec_float :=
  World (<[ ex_metadata_path := JsonValueFile ]>
           {[ ex_index_path := IndexFile ex_index_two ]}) [] [].

(** Exact arithmetic: a store of dimension one holding the vector [1], and
    a world with the vector [2] and the zero vector. *)
Definition rx_store : FAISSVectorStore.t R :=
  FAISSVectorStore.Store 1 ex_index_path ex_metadata_path
    {[ 0%Z := FAISSVectorStore.Entry "a" "p" 0 ]} 1
    (IndexFlatL2.Index 1 [[1%R]]).

Definition rx_world : world R := World ∅ [[2%R]; [0%R]] [[]].

Definition rx_vec : np.ndarray := np.NdArray 0 (np.Shape1 1).

Definition rx_zero_vec : np.ndarray := np.NdArray 1 (np.Shape1 1).

(** The store and the world after [add] of the vector [2, 0] with the list
    of segments of the caller. *)
Definition ex_added : FAISSVectorStore.state spec_float :=
  (FAISSVectorStore.add ex_vec2 "a" "p" (Some 0) (ex_store, ex_created)).2.

(** Three calls of [add] with the same vector. *)
Definition ex_calls : list add_call :=
  [AddCall ex_vec2 "a" "p" None; AddCall ex_vec2 "b" "q" None;
   AddCall ex_vec2 "c" "r" None].

(** What the constructor returns on the two disks. *)
Definition ex_loaded_dim4 : FAISSVectorStore.t spec_float :=
  FAISSVectorStore.Store 8 ex_index_path ex_metadata_path ∅ 0 (IndexFlatL2.Index 4 []).

Definition ex_loaded_diverged : FAISSVectorStore.t spec_float :=
  FAISSVectorStore.Store 2 ex_index_path ex_metadata_path ∅ 0 ex_index_two.


(** A store whose two paths are one file. *)
Definition ex_store_one_path : FAISSVectorStore.t spec_float :=
  FAISSVectorStore.Store 2 ex_index_path ex_index_path ∅ 0 (IndexFlatL2.new 2).

(** A disk with a metadata document of one record and no index file. *)
Definition ex_disk_orphan : world spec_float :=
  World {[ ex_metadata_path :=
             JsonFile (Some 1%Z) (Some [(0%Z, DiskEntry "a" "p" [ex_chunk])]) ]} [] [].

(** Collaborators for the endpoint: a [strip] for the space character, a
    [str] that gives the detail of an [HTTPException], an embedder that
    answers the array [ex_vec2], and a [JSONResponse] that returns the
    content it is given. *)
Fixpoint ex_lstrip (s : string) : string :=
  match s with
  | EmptyString => EmptyString
  | String c r => if Ascii.eqb c " " then ex_lstrip r else s
  end.

Fixpoint ex_rstrip (s : string) : string :=
  match s with
  | EmptyString => EmptyString
  | String c r =>
      match ex_rstrip r with
      | EmptyString => if Ascii.eqb c " " then EmptyString else String c EmptyString
      | r' => String c r'
      end
  end.

Definition ex_strip (s : string) : string := ex_lstrip (ex_rstrip s).

Definition ex_str (e : main.exception) : string :=
  match e with
  | main.PyException _ => "error"
  | main.HTTPException _ detail => detail
  end.

Definition ex_embed (q : string) : py.M (world spec_float) np.ndarray :=
  py.ret ex_vec2.

Definition ex_JSONResponse (c : main.content (F := spec_float))
    : py.M (world spec_float) (main.content (F := spec_float)) :=
  py.ret c.

(** The scenario of the specification in binary32: dimension four, the
    unit vectors [e0] and [e1] added in this order to a store just created,
    and the query [e2], at the same distance of both. *)
Definition sc_world : world spec_float :=
  World ∅
    [[ex_one; ex_zero; ex_zero; ex_zero]; [ex_zero; ex_one; ex_zero; ex_zero];
     [ex_zero; ex_zero; ex_one; ex_zero]]
    [].

Definition sc_e0 : np.ndarray := np.NdArray 0 (np.Shape1 4).

Definition sc_e1 : np.ndarray := np.NdArray 1 (np.Shape1 4).

Definition sc_e2 : np.ndarray := np.NdArray 2 (np.Shape1 4).

Definition sc_calls : list add_call :=
  [AddCall sc_e0 "a" "" None; AddCall sc_e1 "b" "" None].

Definition sc_state : FAISSVectorStore.state spec_float :=
  (add_all sc_calls
     (FAISSVectorStore.Store 4 ex_index_path ex_metadata_path ∅ 0 (IndexFlatL2.new 4),
      (FAISSVectorStore.__init__ 4 ex_index_path ex_metadata_path sc_world).2)).2.

(** Exact arithmetic: a store of dimension one holding [1], [-1] and [1];
    the first and the third are at the same distance of every query. *)
Definition rx_store3 : FAISSVectorStore.t R :=
  FAISSVectorStore.Store 1 ex_index_path ex_metadata_path
    (<[ 0%Z := FAISSVectorStore.Entry "a" "p" 0 ]>
       (<[ 1%Z := FAISSVectorStore.Entry "b" "q" 0 ]>
          {[ 2%Z := FAISSVectorStore.Entry "c" "r" 0 ]})) 3
    (IndexFlatL2.Index 1 [[1%R]; [(-1)%R]; [1%R]]).

(** Vectors at the edges of binary32: [2^-100, 0], whose sum of squares
    underflows; [2^100, 0], whose sum of squares overflows; [inf, 0]; and
    the zero vector. *)
Definition ex_tiny : spec_float := b32 1 (-100).

Definition ex_big : spec_float := b32 1 100.

Definition ex_world_edges : world spec_float :=
  World ∅
    [[ex_tiny; ex_zero]; [ex_big; ex_zero]; [S754_infinity false; ex_zero];
     [ex_zero; S754_zero true]]
    [].

Definition ex_tiny_vec : np.ndarray := np.NdArray 0 (np.Shape1 2).

Definition ex_big_vec : np.ndarray := np.NdArray 1 (np.Shape1 2).

Definition ex_inf_vec : np.ndarray := np.NdArray 2 (np.Shape1 2).

Definition ex_zero_vec : np.ndarray := np.NdArray 3 (np.Shape1 2).

(** * Properties *)

(** ** What the methods compute

    Equations for [add], [search] and [__init__] in terms of the state
    before the call; the properties below are read off them. *)

Section Equations.
Context {F : Type} `{Arith F}.
Import FAISSVectorStore.
#[local] Arguments np.rows : simpl never.

Lemma chunks_or_empty_eq ch (w : world F) :
  chunks_or_empty ch w = (py.Ok (chunks_ref ch w), chunks_world ch w).
Proof.
  destruct ch as [l|]; cbn; [|reflexivity].
  destruct (list_at w l); reflexivity.
Qed.

Lemma add_eq (s : t F) (w : world F) a tx ap ch :
  add a tx ap ch (s, w) =
    if decide ((as_matrix a).2 = IndexFlatL2.d (index s))
    then (py.Ok (next_id s), added s w a tx ap ch)
    else (py.Raise py.AssertionError, (s, renormed w a)).
Proof.
  destruct a as [l [n|n d']]; unfold add, added, renormed, as_matrix; cbn;
    [rewrite (decide_True (P := 1 = 1)) by done
    |rewrite (decide_False (P := 2 = 1)) by done];
    unfold mbind, M_bind, py.bind; cbn;
    unfold IndexFlatL2.add; cbn;
    (destruct (decide _); cbn; [|done]);
    rewrite chunks_or_empty_eq; cbn; done.
Qed.

Lemma format_result_eq md dist idx (w : world F) :
  format_result md dist idx w =
    (py.Ok (result_of md dist idx w), result_world md idx w).
Proof.
  unfold format_result, result_of, result_world.
  destruct (md !! idx); done.
Qed.

Lemma format_results_eq md l (w : world F) :
  format_results md l w =
    (py.Ok (formatted_list md l w).1, (formatted_list md l w).2).
Proof.
  revert w. induction l as [|[dist idx] l IH]; intros w; cbn; [done|].
  destruct (decide _); [apply IH|].
  unfold mbind, M_bind, py.bind. rewrite format_result_eq, IH. done.
Qed.

#[local] Arguments format_results : simpl never.

Lemma search_eq (s : t F) (w : world F) a k :
  search a k (s, w) =
    let w1 := renormed w a in
    let k' := Z.min k (IndexFlatL2.ntotal (index s)) in
    if decide (k' = 0%Z) then (py.Ok [], (s, w1))
    else if decide ((as_matrix a).2 = IndexFlatL2.d (index s))
    then if (0 <? k')%Z
         then match np.rows (as_matrix a).1 (as_matrix a).2 (buffer w1 a) with
              | [] => (py.Raise py.IndexError, (s, w1))
              | q :: _ => formatted s w1 q k'
              end
         else (py.Raise py.AssertionError, (s, w1))
    else (py.Raise py.AssertionError, (s, w1)).
Proof.
  destruct a as [l [n|n d']]; unfold search, formatted, renormed, as_matrix; cbn;
    [rewrite (decide_True (P := 1 = 1)) by done
    |rewrite (decide_False (P := 2 = 1)) by done];
    unfold mbind, M_bind, py.bind; cbn;
    (destruct (decide (_ = 0%Z)); cbn; [done|]);
    unfold IndexFlatL2.search; cbn.
  - destruct (decide (n = _)); cbn; [|done].
    destruct (0 <? _)%Z; cbn; [|done].
    destruct (np.rows 1 n _) as [|q qs]; cbn; [done|].
    unfold on_world; cbn. by rewrite zip_fst_snd, format_results_eq.
  - destruct (decide (d' = _)); cbn; [|done].
    destruct (0 <? _)%Z; cbn; [|done].
    destruct (np.rows n d' _) as [|q qs]; cbn; [done|].
    unfold on_world; cbn. by rewrite zip_fst_snd, format_results_eq.
Qed.

Lemma from_disk_eq l m (w : world F) :
  from_disk l m w =
    (py.Ok (from_disk_map l m (length (lists w))),
     World (files w) (arrays w) (lists w ++ (de_chunks ∘ snd <$> l))).
Proof.
  revert m w. induction l as [|[k v] l IH]; intros m w; cbn.
  - rewrite app_nil_r. by destruct w.
  - unfold mbind, M_bind, py.bind; cbn. rewrite IH; cbn.
    rewrite length_app, Nat.add_1_r, <- app_assoc. done.
Qed.

#[local] Arguments from_disk : simpl never.

Lemma dom_from_disk_map (l : list (Z * disk_entry F)) m n :
  dom (from_disk_map l m n) = dom m ∪ list_to_set l.*1.
Proof.
  revert m n. induction l as [|[k v] l IH]; intros m n; cbn.
  - by rewrite union_empty_r_L.
  - rewrite IH, dom_insert_L.
    by rewrite (union_comm_L {[k]} (dom m)), union_assoc_L.
Qed.

Lemma to_disk_empty (w : world F) : to_disk w ∅ = [].
Proof. unfold to_disk. by rewrite map_to_list_empty. Qed.

Lemma to_disk_keys (w : world F) (m : gmap Z entry) :
  (to_disk w m).*1 = (map_to_list m).*1.
Proof.
  unfold to_disk. rewrite <- list_fmap_compose. done.
Qed.

(** [__init__] when no file is at [index_path]. *)
Lemma init_fresh dim ip mp (w : world F) :
  os.dirname ip ≠ "" → files w !! ip = None →
  __init__ dim ip mp w =
    (py.Ok (Store dim ip mp ∅ 0 (IndexFlatL2.new dim)),
     set_files (λ fs, <[mp := JsonFile (Some 0%Z) (Some [])]> fs) w).
Proof.
  intros Hd Hf. unfold __init__, os.makedirs.
  destruct (os.dirname ip) eqn:E; [done|].
  unfold mbind, M_bind, py.bind; cbn. rewrite Hf; cbn.
  unfold construct, _save_metadata; cbn.
  by rewrite to_disk_empty.
Qed.

(** [__init__] when [index_path] holds an index. *)
Lemma init_load dim ip mp (w : world F) ix :
  os.dirname ip ≠ "" → files w !! ip = Some (IndexFile ix) →
  __init__ dim ip mp w =
    match files w !! mp with
    | None => (py.Ok (Store dim ip mp ∅ 0 ix), w)
    | Some (JsonFile n m) =>
        (py.Ok (Store dim ip mp
                  (from_disk_map (default [] m) ∅ (length (lists w)))
                  (default 0%Z n) ix),
         World (files w) (arrays w)
               (lists w ++ (de_chunks ∘ snd <$> default [] m)))
    | Some (JsonKeysFile _) => (py.Raise py.ValueError, w)
    | Some (JsonMembersFile _) => (py.Raise py.AttributeError, w)
    | Some JsonValueFile => (py.Raise py.AttributeError, w)
    | Some TextFile => (py.Raise py.JSONDecodeError, w)
    | Some OtherFile => (py.Raise py.UnicodeDecodeError, w)
    | Some (IndexFile _) => (py.Raise py.ValueError, w)
    end.
Proof.
  intros Hd Hf. unfold __init__, os.makedirs.
  destruct (os.dirname ip) eqn:E; [done|].
  unfold mbind, M_bind, py.bind, faiss.read_index; cbn.
  rewrite Hf; cbn. rewrite Hf; cbn.
  unfold construct, _load_metadata, json.load; cbn.
  unfold mbind, M_bind, py.bind; cbn.
  destruct (files w !! mp) as [[ix'|n m|n|n| | |]|] eqn:Em; cbn; rewrite ?Em; cbn;
    try done.
  rewrite from_disk_eq. done.
Qed.

(** [__init__] when [index_path] holds something else. *)
Lemma init_unreadable dim ip mp (w : world F) f :
  os.dirname ip ≠ "" → files w !! ip = Some f →
  (∀ ix, f ≠ IndexFile ix) →
  __init__ dim ip mp w = (py.Raise py.RuntimeError, w).
Proof.
  intros Hd Hf Hn. unfold __init__, os.makedirs.
  destruct (os.dirname ip) eqn:E; [done|].
  unfold mbind, M_bind, py.bind, faiss.read_index; cbn.
  rewrite Hf; cbn. rewrite Hf; cbn.
  destruct f; try done. by destruct (Hn ix).
Qed.

(** [__init__] on a path without a directory part. *)
Lemma init_no_directory dim ip mp (w : world F) :
  os.dirname ip = "" →
  __init__ dim ip mp w = (py.Raise py.FileNotFoundError, w).
Proof. intros Hd. unfold __init__. rewrite Hd. done. Qed.

End Equations.

Section Invariant.
Context {F : Type} `{Arith F}.
Import FAISSVectorStore.
#[local] Arguments np.rows : simpl never.

Lemma rows_length {A} n d (b : list A) : length (np.rows n d b) = n.
Proof. unfold np.rows. by rewrite length_fmap, length_seq. Qed.

Lemma rows_one {A} d (b : list A) : np.rows 1 d b = [take d b].
Proof. done. Qed.

Lemma index_ids_add (ix : IndexFlatL2.t F) (rs : list (list F)) :
  length rs = 1 →
  index_ids (IndexFlatL2.Index (IndexFlatL2.d ix) (IndexFlatL2.xb ix ++ rs)) =
    {[ IndexFlatL2.ntotal ix ]} ∪ index_ids ix.
Proof.
  intros Hr. unfold index_ids, IndexFlatL2.ntotal; cbn.
  rewrite length_app, Hr, Nat.add_1_r, seq_S, fmap_app, list_to_set_app_L; cbn.
  rewrite union_empty_r_L. apply union_comm_L.
Qed.

#[local] Arguments index_ids : simpl never.

Lemma formatted_list_files (md : gmap Z entry) l (w : world F) :
  files (formatted_list md l w).2 = files w.
Proof.
  revert w. induction l as [|[dist idx] l IH]; intros w; cbn; [done|].
  destruct (decide _); cbn; rewrite IH; [done|].
  unfold result_world. by destruct (md !! idx).
Qed.

Lemma search_state (s : t F) (w : world F) a k :
  ∃ w', (search a k (s, w)).2 = (s, w') ∧ files w' = files w.
Proof.
  rewrite search_eq; cbn.
  repeat case_decide; try (eexists; split; [done|done]).
  destruct (0 <? _)%Z; [|eexists; split; done].
  destruct (np.rows _ _ _); [eexists; split; done|].
  unfold formatted; cbn. eexists; split; [done|].
  by rewrite formatted_list_files.
Qed.

Lemma create_consistent ip mp dim (w : world F) s w' :
  ip ≠ mp → files w !! ip = None →
  __init__ dim ip mp w = (py.Ok s, w') → consistent ip mp s w'.
Proof.
  intros Hne Hf Hi.
  destruct (decide (os.dirname ip = "")) as [Hd|Hd].
  { by rewrite (init_no_directory _ _ _ _ Hd) in Hi. }
  rewrite (init_fresh _ _ _ _ Hd Hf) in Hi. injection Hi as <- <-.
  repeat split; cbn.
  - right. by rewrite lookup_insert_ne.
  - eexists. by rewrite lookup_insert_eq.
Qed.

Lemma reachable_consistent ip mp (s : t F) (w : world F) :
  ip ≠ mp → reachable ip mp s w → consistent ip mp s w.
Proof.
  intros Hne. induction 1 as
    [dim w s w' Hf Hi
    |dim s w s' w' _ IH Hi
    |s w a tx ap ch r s' w' _ IH Ha Hadd
    |s w a k r s' w' _ IH Hs
    |s w w' _ IH Hf].
  - by eapply create_consistent.
  - destruct IH as (Hip & Hmp & Hids & Hn & Hix & l & Hl & Hdom).
    destruct Hix as [Hix|[Hix _]]; [|by eapply create_consistent].
    destruct (decide (os.dirname ip = "")) as [Hd|Hd].
    { by rewrite (init_no_directory _ _ _ _ Hd) in Hi. }
    rewrite (init_load _ _ _ _ _ Hd Hix), Hl in Hi. injection Hi as <- <-.
    repeat split; cbn.
    + unfold ids_agree; cbn. by rewrite dom_from_disk_map, dom_empty_L, union_empty_l_L, Hdom.
    + done.
    + by left.
    + exists l. split; [done|].
      by rewrite dom_from_disk_map, dom_empty_L, union_empty_l_L.
  - destruct IH as (Hip & Hmp & Hids & Hn & Hix & l & Hl & Hdom).
    rewrite add_eq in Hadd. case_decide as Hd.
    + injection Hadd as _ <- <-. unfold added; cbn.
      assert (Hlen : length (np.rows (as_matrix a).1 (as_matrix a).2
                               (buffer (renormed w a) a)) = 1)
        by (rewrite rows_length; exact Ha).
      repeat split; cbn; try done.
      * unfold ids_agree in *; cbn.
        rewrite dom_insert_L, index_ids_add by done.
        by rewrite Hids, Hn.
      * unfold IndexFlatL2.ntotal; cbn. rewrite length_app, Hlen, Hn.
        unfold IndexFlatL2.ntotal. lia.
      * left. rewrite Hip, Hmp, lookup_insert_ne by done.
        by rewrite lookup_insert_eq.
      * eexists. rewrite Hmp.
        split.
        { by rewrite lookup_insert_eq. }
        rewrite to_disk_keys. symmetry. apply leibniz_equiv, dom_alt.
    + injection Hadd as _ <- <-. by repeat split; eauto.
  - destruct (search_state s w a k) as (w1 & Hst & Hfs).
    rewrite Hs in Hst; cbn in Hst. injection Hst as <- <-.
    destruct IH as (Hip & Hmp & Hids & Hn & Hix & l & Hl & Hdom).
    repeat split; try done; rewrite Hfs; eauto.
  - destruct IH as (Hip & Hmp & Hids & Hn & Hix & l & Hl & Hdom).
    repeat split; try done; rewrite Hf; eauto.
Qed.

End Invariant.

Section Claims.
Context {F : Type} `{Arith F}.
Import FAISSVectorStore.
#[local] Arguments np.rows : simpl never.

Lemma renormed_files (w : world F) a : files (renormed w a) = files w.
Proof. done. Qed.

Lemma chunks_world_files ch (w : world F) : files (chunks_world ch w) = files w.
Proof. destruct ch as [c|]; cbn; [destruct (list_at w c)|]; done. Qed.

(** C1 (amended). A vector whose length differs from the dimension of the
    index makes [add] raise the assertion error of the index library, with
    the store object and the files as before: nothing is stored.  [search]
    raises the same error when [min(k, ntotal)] is not zero, and returns
    the empty list when it is, as on an empty store.  In both cases the
    array of the caller has been normalised. *)
Theorem dimension_mismatch (s : t F) (w : world F) (v : np.ndarray) (n : nat)
    (tx ap : string) (ch : option nat) (k : Z) :
  np.shp v = np.Shape1 n → n ≠ IndexFlatL2.d (index s) →
  add v tx ap ch (s, w) = (py.Raise py.AssertionError, (s, renormed w v))
  ∧ search v k (s, w) =
      (if decide (Z.min k (IndexFlatL2.ntotal (index s)) = 0%Z)
       then py.Ok [] else py.Raise py.AssertionError,
       (s, renormed w v))
  ∧ files (renormed w v) = files w.
Proof.
  intros Hv Hn. split; [|split; [|done]].
  - by rewrite add_eq, decide_False by (unfold as_matrix; by rewrite Hv).
  - rewrite search_eq; cbn. case_decide; [done|].
    by rewrite decide_False by (unfold as_matrix; by rewrite Hv).
Qed.

Lemma persist_eq (s : t F) (w : world F) :
  persist (s, w) =
    (py.Ok tt,
     (s, set_files (λ fs,
           <[metadata_path s := JsonFile (Some (next_id s))
               (Some (to_disk (set_files (λ fs', <[index_path s := IndexFile (index s)]> fs') w)
                              (metadata s)))]>
             (<[index_path s := IndexFile (index s)]> fs)) w)).
Proof. done. Qed.

(** C3. Saving the index and the metadata of any store, then constructing
    a store from the same two paths, whatever dimension is requested, gives
    a store whose index has the same count, the same dimension and the same
    vectors. *)
Theorem index_roundtrip (s : t F) (w : world F) (dim : nat) :
  index_path s ≠ metadata_path s →
  os.dirname (index_path s) ≠ "" →
  ∃ s' w',
    __init__ dim (index_path s) (metadata_path s) (persist (s, w)).2.2 = (py.Ok s', w')
    ∧ IndexFlatL2.ntotal (index s') = IndexFlatL2.ntotal (index s)
    ∧ IndexFlatL2.d (index s') = IndexFlatL2.d (index s)
    ∧ IndexFlatL2.xb (index s') = IndexFlatL2.xb (index s).
Proof.
  intros Hne Hd. rewrite persist_eq; cbn [snd].
  erewrite (init_load _ _ _ _ (index s) Hd); cbn.
  - rewrite lookup_insert_eq. by eexists _, _.
  - rewrite lookup_insert_ne by done. by rewrite lookup_insert_eq.
Qed.

(** C4 (amended). With an index file on disk the constructor loads it as it
    is: the dimension requested is not compared with the dimension of the
    file and no error is raised for a difference; the store keeps the
    requested dimension next to the index of the file.  Without an index
    file an empty index of the requested dimension is created. *)
Theorem startup_index (dim : nat) (ip mp : string) (w : world F) :
  os.dirname ip ≠ "" →
  (∀ ix, files w !! ip = Some (IndexFile ix) →
         (files w !! mp = None ∨ ∃ n m, files w !! mp = Some (JsonFile n m)) →
         ∃ s w', __init__ dim ip mp w = (py.Ok s, w')
                 ∧ index s = ix ∧ dimension s = dim)
  ∧ (files w !! ip = None →
     ∃ w', __init__ dim ip mp w =
             (py.Ok (Store dim ip mp ∅ 0 (IndexFlatL2.new dim)), w')).
Proof.
  intros Hd. split.
  - intros ix Hix Hmd. rewrite (init_load _ _ _ _ _ Hd Hix).
    destruct Hmd as [->|(n & m & ->)]; by eexists _, _.
  - intros Hix. rewrite (init_fresh _ _ _ _ Hd Hix). by eexists.
Qed.



Lemma add_all_ids (calls : list add_call) (s : t F) (w : world F) :
  Forall (λ c, np.shp (call_embedding c) = np.Shape1 (IndexFlatL2.d (index s))) calls →
  (add_all calls (s, w)).1 =
    py.Ok ((λ i, (next_id s + Z.of_nat i)%Z) <$> seq 0 (length calls)).
Proof.
  revert s w. induction calls as [|c calls IH]; intros s w Hall; [done|].
  apply Forall_cons in Hall as [Hc Hall]. cbn [add_all].
  unfold mbind, M_bind, py.bind.
  rewrite add_eq, decide_True by (unfold as_matrix; by rewrite Hc).
  set (st := added _ _ _ _ _ _).
  specialize (IH st.1 st.2). destruct st as [s' w'] eqn:Est.
  assert (Hs' : IndexFlatL2.d (index s') = IndexFlatL2.d (index s)
                ∧ next_id s' = (next_id s + 1)%Z).
  { unfold st, added in Est. injection Est as <- _. done. }
  destruct Hs' as [Hd' Hn']. cbn [fst snd] in IH.
  rewrite Hd' in IH. specialize (IH Hall).
  destruct (add_all calls (s', w')) as [[js|e] st'']; cbn in IH; [|done].
  injection IH as ->. cbn. rewrite Z.add_0_r. do 2 f_equal.
  rewrite <- fmap_S_seq, <- list_fmap_compose.
  apply list_fmap_ext. intros i x _; cbn. lia.
Qed.

(** C6. On a store just created where no index file was, [add] called [n]
    times, each time with a vector of the dimension of the store, returns
    [0, 1, ..., n - 1] in this order. *)
Theorem add_ids_sequential (dim : nat) (ip mp : string) (w : world F)
    (s : t F) (w' : world F) (calls : list add_call) :
  files w !! ip = None →
  __init__ dim ip mp w = (py.Ok s, w') →
  Forall (λ c, np.shp (call_embedding c) = np.Shape1 dim) calls →
  (add_all calls (s, w')).1 = py.Ok (Z.of_nat <$> seq 0 (length calls)).
Proof.
  intros Hf Hi Hall.
  destruct (decide (os.dirname ip = "")) as [Hd|Hd].
  { by rewrite (init_no_directory _ _ _ _ Hd) in Hi. }
  rewrite (init_fresh _ _ _ _ Hd Hf) in Hi. injection Hi as <- <-.
  rewrite add_all_ids by done. done.
Qed.

End Claims.

Section Query.
Context {F : Type} `{Arith F}.
Import FAISSVectorStore.
#[local] Arguments np.rows : simpl never.

Lemma insert_closer_perm (p : F * Z) l : IndexFlatL2.insert_closer p l ≡ₚ p :: l.
Proof.
  induction l as [|q l IH]; cbn; [done|].
  destruct (IndexFlatL2.closer p q); [done|].
  rewrite IH. apply Permutation_swap.
Qed.

Lemma sort_closer_perm (l : list (F * Z)) : IndexFlatL2.sort_closer l ≡ₚ l.
Proof.
  induction l as [|p l IH]; [done|].
  change (IndexFlatL2.sort_closer (p :: l))
    with (IndexFlatL2.insert_closer p (IndexFlatL2.sort_closer l)).
  by rewrite insert_closer_perm, IH.
Qed.

Lemma scored_length q (xb : list (list F)) :
  length (IndexFlatL2.scored q xb) = length xb.
Proof. unfold IndexFlatL2.scored. apply length_imap. Qed.

Lemma elem_of_scored q (xb : list (list F)) p :
  p ∈ IndexFlatL2.scored q xb ↔
  ∃ i y, xb !! i = Some y ∧ p = (IndexFlatL2.L2sqr q y, Z.of_nat i).
Proof.
  unfold IndexFlatL2.scored. rewrite list_elem_of_lookup. split.
  - intros [i Hi]. rewrite list_lookup_imap in Hi.
    destruct (xb !! i) as [y|] eqn:E; [|done]. injection Hi as <-. eauto.
  - intros (i & y & Hy & ->). exists i. by rewrite list_lookup_imap, Hy.
Qed.

Lemma scored_ids q (xb : list (list F)) :
  (IndexFlatL2.scored q xb).*2 = Z.of_nat <$> seq 0 (length xb).
Proof.
  unfold IndexFlatL2.scored. rewrite fmap_imap.
  rewrite (imap_ext _ (λ i _, Z.of_nat i)) by done.
  by rewrite imap_seq_0.
Qed.

(** With [k] at most the number of stored vectors, every slot is filled. *)
Lemma knn_filled (xb : list (list F)) q k :
  k ≤ length xb →
  IndexFlatL2.knn xb q k = take k (IndexFlatL2.sort_closer (IndexFlatL2.scored q xb)).
Proof.
  intros Hk. unfold IndexFlatL2.knn.
  rewrite length_take, (Permutation_length (sort_closer_perm _)), scored_length.
  replace (k - k `min` length xb) with 0 by lia. cbn. by rewrite app_nil_r.
Qed.

Lemma knn_length (xb : list (list F)) q k :
  length (IndexFlatL2.knn xb q k) = k.
Proof.
  unfold IndexFlatL2.knn.
  rewrite length_app, length_replicate, length_take. lia.
Qed.

Lemma knn_filled_labels (xb : list (list F)) q k :
  k ≤ length xb →
  Forall (λ p, p.2 ≠ (-1)%Z) (IndexFlatL2.knn xb q k).
Proof.
  intros Hk. rewrite knn_filled by done. apply Forall_take.
  rewrite (sort_closer_perm _). apply Forall_forall. intros p Hp.
  apply elem_of_scored in Hp as (i & y & _ & ->). cbn. lia.
Qed.

(** Without the label [-1] the loop keeps every slot, in order. *)
Lemma formatted_list_pairs (md : gmap Z entry) l (w : world F) :
  Forall (λ p, p.2 ≠ (-1)%Z) l →
  pair_of <$> (formatted_list md l w).1 = l.
Proof.
  revert w. induction l as [|[dist idx] l IH]; intros w Hl; cbn; [done|].
  apply Forall_cons in Hl as [Hp Hl]. cbn in Hp.
  rewrite decide_False by done. cbn. rewrite IH by done.
  f_equal. unfold result_of, pair_of. by destruct (md !! idx).
Qed.

Lemma buffer_holds (w : world F) (v : np.ndarray) b :
  arrays w !! np.data v = Some b → buffer w v = b.
Proof. intros Hb. by apply list_lookup_total_correct. Qed.

(** The buffer of a live array after normalisation in place. *)
Lemma renormed_buffer (w : world F) (v : np.ndarray) b :
  arrays w !! np.data v = Some b →
  buffer (renormed w v) v =
    concat (IndexFlatL2.renorm <$> np.rows (as_matrix v).1 (as_matrix v).2 b).
Proof.
  intros Hb. unfold renormed. rewrite (buffer_holds _ _ _ Hb).
  apply list_lookup_total_correct; cbn. apply list_lookup_insert_eq.
  by eapply lookup_lt_Some.
Qed.

Lemma renorm_length (x : list F) : length (IndexFlatL2.renorm x) = length x.
Proof.
  unfold IndexFlatL2.renorm. destruct (feqb _ _); [done|]. apply length_fmap.
Qed.

(** The row the library receives for a live vector: its normalisation. *)
Lemma vector_row (w : world F) (v : np.ndarray) n b :
  np.shp v = np.Shape1 n → holds w v b →
  np.rows (as_matrix v).1 (as_matrix v).2 (buffer (renormed w v) v)
    = [IndexFlatL2.renorm b].
Proof.
  intros Hv [Hb Hlen]. rewrite (renormed_buffer _ _ _ Hb).
  unfold as_matrix. rewrite Hv in *; cbn in *.
  rewrite (rows_one n b), (firstn_all2 b) by lia. cbn. rewrite app_nil_r.
  rewrite rows_one. by rewrite firstn_all2 by (rewrite renorm_length; lia).
Qed.

(** [search] with a vector of the dimension of the index when
    [min(k, ntotal)] is positive: the loop runs over the answer of the
    library for the normalised query. *)
Lemma search_vector (s : t F) (w : world F) (v : np.ndarray) (k : Z) :
  np.shp v = np.Shape1 (IndexFlatL2.d (index s)) →
  (0 < Z.min k (IndexFlatL2.ntotal (index s)))%Z →
  search v k (s, w) =
    formatted s (renormed w v)
      (take (IndexFlatL2.d (index s)) (buffer (renormed w v) v))
      (Z.min k (IndexFlatL2.ntotal (index s))).
Proof.
  intros Hv Hk. rewrite search_eq; cbn zeta.
  rewrite decide_False by lia.
  rewrite decide_True by (unfold as_matrix; by rewrite Hv).
  rewrite (proj2 (Z.ltb_lt _ _)) by done.
  unfold as_matrix. rewrite Hv; cbn [fst snd]. by rewrite rows_one.
Qed.

Lemma search_vector_holds (s : t F) (w : world F) (v : np.ndarray) b (k : Z) :
  np.shp v = np.Shape1 (IndexFlatL2.d (index s)) → holds w v b →
  (0 < Z.min k (IndexFlatL2.ntotal (index s)))%Z →
  search v k (s, w) =
    formatted s (renormed w v) (IndexFlatL2.renorm b)
      (Z.min k (IndexFlatL2.ntotal (index s))).
Proof.
  intros Hv Hb Hk. rewrite (search_vector _ _ _ _ Hv Hk).
  pose proof (vector_row _ _ _ _ Hv Hb) as Hr.
  unfold as_matrix in Hr. rewrite Hv in Hr; cbn [fst snd] in Hr.
  rewrite rows_one in Hr. by injection Hr as ->.
Qed.

(** C7 (amended). For a query vector of the dimension of the index and a
    count [k] that is not negative, [search] returns a list of exactly
    [min(k, ntotal)] results; it raises nothing, on the empty store it
    returns the empty list, and a [k] above the number of stored vectors is
    clamped. *)
Theorem search_count (s : t F) (w : world F) (v : np.ndarray) (k : Z) :
  np.shp v = np.Shape1 (IndexFlatL2.d (index s)) →
  (0 ≤ k)%Z →
  ∃ rs st', search v k (s, w) = (py.Ok rs, st')
            ∧ Z.of_nat (length rs) = Z.min k (IndexFlatL2.ntotal (index s)).
Proof.
  intros Hv Hk.
  destruct (decide (Z.min k (IndexFlatL2.ntotal (index s)) = 0%Z)) as [Hz|Hz].
  - rewrite search_eq; cbn zeta. rewrite decide_True by done.
    eexists _, _. split; [done|]. by rewrite Hz.
  - assert (Hpos : (0 < Z.min k (IndexFlatL2.ntotal (index s)))%Z).
    { unfold IndexFlatL2.ntotal in *. lia. }
    rewrite (search_vector _ _ _ _ Hv Hpos). unfold formatted.
    eexists _, _. split; [done|].
    rewrite <- (length_fmap pair_of), formatted_list_pairs.
    + rewrite knn_length. lia.
    + apply knn_filled_labels. unfold IndexFlatL2.ntotal. lia.
Qed.

End Query.

Lemma StronglySorted_of_fmap {A B} (f : A → B) (R : relation B) (l : list A) :
  StronglySorted R (f <$> l) → StronglySorted (λ x y, R (f x) (f y)) l.
Proof.
  induction l as [|x l IH]; cbn; intros Hs; [constructor|].
  apply StronglySorted_cons in Hs as [Hx Hs].
  apply StronglySorted_cons. split; [|by apply IH].
  exact (proj1 (Forall_fmap f (R (f x)) l) Hx).
Qed.

Lemma StronglySorted_mono {A} (R1 R2 : relation A) (l : list A) :
  (∀ x y, R1 x y → R2 x y) → StronglySorted R1 l → StronglySorted R2 l.
Proof.
  intros HR. induction 1 as [|x l _ IH Hx]; constructor; [done|].
  eapply Forall_impl; [exact Hx|]. intros y. apply HR.
Qed.

(** ** The order of the results

Sorting by insertion orders the (distance, id) pairs whenever the
    comparison of the arithmetic is transitive and decides every pair of
    entries with different ids.  Exact arithmetic has both laws. *)

Section Order.
Context {F : Type} `{Arith F}.
Import FAISSVectorStore.
#[local] Arguments np.rows : simpl never.

(** The values the comparison of the arithmetic orders: all of them in
    exact arithmetic, all but NaN in binary32. *)
Variable number : F → Prop.

Hypothesis closer_trans : ∀ a b c, comes_before a b → comes_before b c → comes_before a c.
Hypothesis closer_total :
  ∀ a b, number a.1 → number b.1 → a.2 ≠ b.2 → ¬ comes_before a b → comes_before b a.

Lemma insert_closer_sorted (p : F * Z) l :
  number p.1 → Forall (λ q, number q.1) l →
  p.2 ∉ l.*2 →
  StronglySorted comes_before l →
  StronglySorted comes_before (IndexFlatL2.insert_closer p l).
Proof.
  intros Hnp.
  induction l as [|q l IH]; intros Hnl Hp Hs; cbn.
  - by repeat constructor.
  - apply StronglySorted_cons in Hs as [Hq Hs].
    apply Forall_cons in Hnl as [Hnq Hnl].
    rewrite fmap_cons, not_elem_of_cons in Hp. destruct Hp as [Hpq Hp].
    destruct (IndexFlatL2.closer p q) eqn:E.
    + apply StronglySorted_cons. split; [|by apply StronglySorted_cons].
      constructor; [done|].
      eapply Forall_impl; [exact Hq|]. intros x Hx. by eapply closer_trans.
    + apply StronglySorted_cons. split; [|by apply IH].
      rewrite insert_closer_perm. constructor; [|done].
      apply closer_total; [done|done|done|]. unfold comes_before. by rewrite E.
Qed.

Lemma sort_closer_sorted (l : list (F * Z)) :
  Forall (λ q, number q.1) l →
  NoDup l.*2 → StronglySorted comes_before (IndexFlatL2.sort_closer l).
Proof.
  induction l as [|p l IH]; intros Hn Hnd; [constructor|].
  change (IndexFlatL2.sort_closer (p :: l))
    with (IndexFlatL2.insert_closer p (IndexFlatL2.sort_closer l)).
  apply Forall_cons in Hn as [Hp Hn].
  rewrite fmap_cons in Hnd. apply NoDup_cons in Hnd as [Hpl Hnd].
  apply insert_closer_sorted; [done| | |by apply IH].
  - by rewrite (sort_closer_perm l).
  - by rewrite (sort_closer_perm l).
Qed.

Lemma scored_NoDup q (xb : list (list F)) : NoDup (IndexFlatL2.scored q xb).*2.
Proof.
  rewrite scored_ids. apply NoDup_fmap_2; [apply _|apply NoDup_seq].
Qed.

(** The answer of the library: sorted, and nothing left out comes before
    anything returned. *)
Lemma knn_sorted (xb : list (list F)) q k :
  Forall (λ p, number p.1) (IndexFlatL2.scored q xb) →
  k ≤ length xb →
  StronglySorted comes_before (IndexFlatL2.knn xb q k)
  ∧ ∀ p p', p ∈ IndexFlatL2.knn xb q k → p' ∈ IndexFlatL2.scored q xb →
            p' ∉ IndexFlatL2.knn xb q k → comes_before p p'.
Proof.
  intros Hn Hk. rewrite knn_filled by done.
  pose proof (sort_closer_sorted _ Hn (scored_NoDup q xb)) as Hs.
  rewrite <- (take_drop k (IndexFlatL2.sort_closer _)) in Hs.
  split; [by eapply StronglySorted_app_1_l|].
  intros p p' Hp Hp' Hnot.
  eapply StronglySorted_app_1_elem_of; [exact Hs|done|].
  rewrite <- (sort_closer_perm _), <- (take_drop k (IndexFlatL2.sort_closer _)) in Hp'.
  apply elem_of_app in Hp' as [?|?]; done.
Qed.

(** What [search] returns when the distances of the query to the stored
    vectors are values the comparison orders: the [min(k, ntotal)] pairs
    that come first, in order. *)
Lemma search_sorted (s : t F) (w : world F) (v : np.ndarray) (b : list F) (k : Z) :
  np.shp v = np.Shape1 (IndexFlatL2.d (index s)) → holds w v b → (0 ≤ k)%Z →
  Forall (λ p, number p.1)
    (IndexFlatL2.scored (IndexFlatL2.renorm b) (IndexFlatL2.xb (index s))) →
  ∃ rs st',
    search v k (s, w) = (py.Ok rs, st')
    ∧ Z.of_nat (length rs) = Z.min k (IndexFlatL2.ntotal (index s))
    ∧ (∀ r, r ∈ rs → ∃ i y, IndexFlatL2.xb (index s) !! i = Some y
         ∧ id r = Z.of_nat i
         ∧ distance r = IndexFlatL2.L2sqr (IndexFlatL2.renorm b) y)
    ∧ StronglySorted (λ r1 r2, comes_before (pair_of r1) (pair_of r2)) rs
    ∧ (∀ r i y, r ∈ rs → IndexFlatL2.xb (index s) !! i = Some y →
         Z.of_nat i ∉ id <$> rs →
         comes_before (pair_of r)
           (IndexFlatL2.L2sqr (IndexFlatL2.renorm b) y, Z.of_nat i)).
Proof.
  intros Hv Hb Hk Hn.
  destruct (decide (Z.min k (IndexFlatL2.ntotal (index s)) = 0%Z)) as [Hz|Hz].
  { rewrite search_eq; cbn zeta. rewrite decide_True by done.
    eexists [], _. split; [done|]. split; [by rewrite Hz|].
    split; [intros r Hr; by apply elem_of_nil in Hr|]. split; [constructor|].
    intros r i y Hr; by apply elem_of_nil in Hr. }
  assert (Hpos : (0 < Z.min k (IndexFlatL2.ntotal (index s)))%Z).
  { unfold IndexFlatL2.ntotal in *. lia. }
  rewrite (search_vector_holds _ _ _ _ _ Hv Hb Hpos). unfold formatted.
  set (k' := Z.to_nat _). set (q := IndexFlatL2.renorm b) in *.
  set (l := IndexFlatL2.knn _ q k').
  assert (Hk' : k' ≤ length (IndexFlatL2.xb (index s))).
  { unfold k', IndexFlatL2.ntotal. lia. }
  set (rs := (formatted_list _ l _).1).
  assert (Hrs : pair_of <$> rs = l).
  { apply formatted_list_pairs. by apply knn_filled_labels. }
  destruct (knn_sorted (IndexFlatL2.xb (index s)) q k' Hn Hk') as [Hsorted Hbest].
  fold l in Hsorted, Hbest.
  eexists rs, _. split; [done|]. split; [|split; [|split]].
  - rewrite <- (length_fmap pair_of), Hrs. unfold l. rewrite knn_length.
    unfold k'. lia.
  - intros r Hr.
    assert (Hp : pair_of r ∈ l) by (rewrite <- Hrs; by apply list_elem_of_fmap_2).
    unfold l in Hp. rewrite knn_filled in Hp by done.
    apply elem_of_take in Hp as (j & Hp & _).
    apply list_elem_of_lookup_2 in Hp.
    rewrite (sort_closer_perm _) in Hp.
    apply elem_of_scored in Hp as (i & y & Hy & Hp).
    exists i, y. unfold pair_of in Hp. by injection Hp as -> ->.
  - apply StronglySorted_of_fmap. by rewrite Hrs.
  - intros r i y Hr Hy Hi. apply Hbest.
    + rewrite <- Hrs. by apply list_elem_of_fmap_2.
    + apply elem_of_scored. eauto.
    + intros Hin. apply Hi. rewrite <- Hrs in Hin.
      apply list_elem_of_fmap in Hin as (r' & Hr' & Hin).
      apply list_elem_of_fmap. exists r'. split; [|done].
      unfold pair_of in Hr'. by injection Hr'.
Qed.

End Order.

(** ** Exact arithmetic *)

Section Exact.
Import FAISSVectorStore.
#[local] Arguments np.rows : simpl never.
#[local] Arguments IndexFlatL2.sum_sq : simpl never.
#[local] Open Scope R_scope.

Lemma closer_exact (a b : R * Z) : comes_before a b ↔ nearer a b.
Proof.
  unfold comes_before, nearer, IndexFlatL2.closer; cbn.
  destruct (Rlt_dec a.1 b.1) as [Hlt|Hlt]; cbn; [by intuition|].
  destruct (Req_dec_T a.1 b.1) as [Heq|Heq]; cbn.
  - rewrite Z.ltb_lt. intuition.
  - intuition; try done.
Qed.

Lemma nearer_trans (a b c : R * Z) : nearer a b → nearer b c → nearer a c.
Proof. unfold nearer. intros [?|[? ?]] [?|[? ?]]; [left|left|left|right]; try lra. split; [lra|lia]. Qed.

Lemma nearer_total (a b : R * Z) : a.2 ≠ b.2 → ¬ nearer a b → nearer b a.
Proof.
  unfold nearer. intros Hne Hn.
  destruct (Rtotal_order a.1 b.1) as [?|[?|?]]; [tauto| |by left].
  right. split; [done|]. destruct (Z.lt_trichotomy a.2 b.2) as [?|[?|?]]; [tauto|done|done].
Qed.

Lemma sum_sq_acc (x : list R) (acc : R) :
  foldl (λ acc xi, acc + xi * xi) acc x = acc + foldl (λ acc xi, acc + xi * xi) 0 x.
Proof.
  revert acc. induction x as [|xi x IH]; intros acc; cbn; [lra|].
  rewrite IH, (IH (0 + xi * xi)). lra.
Qed.

Lemma sum_sq_cons (xi : R) (x : list R) :
  IndexFlatL2.sum_sq (xi :: x) = xi * xi + IndexFlatL2.sum_sq x.
Proof.
  change (foldl (λ acc xi, acc + xi * xi) (0 + xi * xi) x
          = xi * xi + foldl (λ acc xi, acc + xi * xi) 0 x).
  rewrite sum_sq_acc. lra.
Qed.

Lemma sum_sq_nil : IndexFlatL2.sum_sq (@nil R) = 0.
Proof. done. Qed.

Lemma sum_sq_nonneg (x : list R) : 0 <= IndexFlatL2.sum_sq x.
Proof.
  induction x as [|xi x IH]; [rewrite sum_sq_nil; lra|].
  rewrite sum_sq_cons. nra.
Qed.

Lemma sum_sq_zero (x : list R) :
  IndexFlatL2.sum_sq x = 0 ↔ Forall (λ xi, xi = 0) x.
Proof.
  induction x as [|xi x IH]; [by split; [constructor|]|].
  rewrite sum_sq_cons, Forall_cons, <- IH.
  pose proof (sum_sq_nonneg x). split; [intros; split; nra|intros [-> ->]; lra].
Qed.

Lemma sum_sq_scale (x : list R) (n : R) :
  n ≠ 0 →
  IndexFlatL2.sum_sq ((λ xi, xi / n) <$> x) = IndexFlatL2.sum_sq x / (n * n).
Proof.
  intros Hn. induction x as [|xi x IH].
  - rewrite fmap_nil, sum_sq_nil. field. done.
  - rewrite fmap_cons, !sum_sq_cons, IH. cbn. field. done.
Qed.

(** Normalisation in exact arithmetic: the zero vector is kept as it is,
    and no division takes place; any other vector is divided by its norm,
    which is not zero, and the result has norm one. *)
Lemma renorm_exact (x : list R) :
  (Forall (λ xi, xi = 0) x → IndexFlatL2.renorm x = x)
  ∧ (¬ Forall (λ xi, xi = 0) x →
     sqrt (IndexFlatL2.sum_sq x) ≠ 0
     ∧ IndexFlatL2.renorm x = (λ xi, xi / sqrt (IndexFlatL2.sum_sq x)) <$> x
     ∧ sqrt (IndexFlatL2.sum_sq (IndexFlatL2.renorm x)) = 1).
Proof.
  pose proof (sum_sq_nonneg x) as Hpos.
  unfold IndexFlatL2.renorm; cbn. split.
  - intros Hz. apply sum_sq_zero in Hz. rewrite Hz, sqrt_0.
    by destruct (Req_dec_T 0 0).
  - intros Hnz. rewrite <- sum_sq_zero in Hnz.
    assert (Hs : sqrt (IndexFlatL2.sum_sq x) ≠ 0).
    { intros Hs. apply sqrt_eq_0 in Hs; done. }
    destruct (Req_dec_T _ 0) as [?|_]; [done|].
    split; [done|]. split; [done|].
    rewrite sum_sq_scale, sqrt_sqrt by done.
    replace (IndexFlatL2.sum_sq x / IndexFlatL2.sum_sq x) with 1 by (field; done).
    apply sqrt_1.
Qed.

End Exact.

Section Sharing.
Context {F : Type} `{Arith F}.
Import FAISSVectorStore.
#[local] Arguments np.rows : simpl never.

Lemma formatted_list_arrays (md : gmap Z entry) l (w : world F) :
  arrays (formatted_list md l w).2 = arrays w.
Proof.
  revert w. induction l as [|[dist idx] l IH]; intros w; cbn; [done|].
  destruct (decide _); cbn; rewrite IH; [done|].
  unfold result_world. by destruct (md !! idx).
Qed.

Lemma chunks_world_arrays ch (w : world F) : arrays (chunks_world ch w) = arrays w.
Proof. destruct ch as [c|]; cbn; [destruct (list_at w c)|]; done. Qed.

(** Whatever [add] returns, the arrays are as normalisation left them. *)
Lemma add_arrays (s : t F) (w : world F) v tx ap ch :
  arrays (add v tx ap ch (s, w)).2.2 = arrays (renormed w v).
Proof.
  rewrite add_eq. case_decide; [|done].
  unfold added; cbn. apply chunks_world_arrays.
Qed.

Lemma search_arrays (s : t F) (w : world F) v k :
  arrays (search v k (s, w)).2.2 = arrays (renormed w v).
Proof.
  rewrite search_eq; cbn zeta. repeat case_decide; try done.
  destruct (0 <? _)%Z; [|done].
  destruct (np.rows _ _ _); [done|].
  unfold formatted; cbn. apply formatted_list_arrays.
Qed.

(** The buffer of a live vector after normalisation in place. *)
Lemma renormed_vector (w : world F) (v : np.ndarray) n b :
  np.shp v = np.Shape1 n → holds w v b →
  buffer (renormed w v) v = IndexFlatL2.renorm b.
Proof.
  intros Hv [Hb Hlen]. rewrite (renormed_buffer _ _ _ Hb).
  unfold as_matrix. rewrite Hv in *; cbn in *.
  rewrite (rows_one n b), (firstn_all2 b) by lia. cbn. by rewrite app_nil_r.
Qed.

(** [add] with a live vector of the dimension of the index: the id is
    [next_id], and the normalised vector is appended to the index. *)
Lemma add_vector (s : t F) (w : world F) (v : np.ndarray) b tx ap ch :
  np.shp v = np.Shape1 (IndexFlatL2.d (index s)) → holds w v b →
  ∃ st', add v tx ap ch (s, w) = (py.Ok (next_id s), st')
         ∧ IndexFlatL2.xb (index st'.1)
           = IndexFlatL2.xb (index s) ++ [IndexFlatL2.renorm b].
Proof.
  intros Hv Hb. rewrite add_eq, decide_True by (unfold as_matrix; by rewrite Hv).
  eexists. split; [done|]. unfold added; cbn.
  by rewrite (vector_row _ _ _ _ Hv Hb).
Qed.

Lemma elem_of_formatted_list (md : gmap Z entry) l (w : world F) r :
  r ∈ (formatted_list md l w).1 →
  ∃ w', r = result_of md (distance r) (id r) w'.
Proof.
  revert w. induction l as [|[dist idx] l IH]; intros w; cbn; [intros Hr; by apply elem_of_nil in Hr|].
  destruct (decide _); [apply IH|]. cbn.
  intros [->|Hr]%elem_of_cons; [|by eapply IH].
  exists w. unfold result_of. destruct (md !! idx) eqn:E; cbn; by rewrite E.
Qed.

(** C10 (amended). [add] and [search] normalise the array of the caller in
    place: after the call, whether it returned or raised, the buffer of the
    vector holds the normalised vector.  The [chunks] of a search result is
    the very list object of the record in the store, and [add] puts the
    list object of the caller, when it is not empty, into the record. *)
Theorem shared_by_reference (s : t F) (w : world F) (v : np.ndarray) (n : nat)
    (b : list F) (tx ap : string) (ch : option nat) (k : Z) :
  np.shp v = np.Shape1 n → holds w v b →
  buffer (add v tx ap ch (s, w)).2.2 v = IndexFlatL2.renorm b
  ∧ buffer (search v k (s, w)).2.2 v = IndexFlatL2.renorm b
  ∧ (∀ rs st' r e, search v k (s, w) = (py.Ok rs, st') → r ∈ rs →
       metadata s !! id r = Some e → res_chunks r = chunks e)
  ∧ (∀ l i st', ch = Some l → list_at (renormed w v) l ≠ [] →
       add v tx ap ch (s, w) = (py.Ok i, st') →
       ∃ e, metadata st'.1 !! i = Some e ∧ chunks e = l).
Proof.
  intros Hv Hb. split; [|split; [|split]].
  - unfold buffer at 1. rewrite add_arrays. by eapply renormed_vector.
  - unfold buffer at 1. rewrite search_arrays. by eapply renormed_vector.
  - intros rs st' r e Hs Hr He. rewrite search_eq in Hs; cbn zeta in Hs.
    case_decide; [injection Hs as <- _; by apply elem_of_nil in Hr|].
    case_decide; [|done]. destruct (0 <? _)%Z; [|done].
    destruct (np.rows _ _ _); [done|].
    unfold formatted in Hs. injection Hs as <- _.
    apply elem_of_formatted_list in Hr as [w' Hr].
    rewrite Hr. unfold result_of; cbn. by rewrite He.
  - intros l i st' -> Hl Ha. rewrite add_eq in Ha.
    case_decide; [|done]. injection Ha as <- <-.
    unfold added; cbn. rewrite lookup_insert_eq. eexists. split; [done|]. cbn.
    destruct (list_at (renormed w v) l); done.
Qed.

End Sharing.

Section ExactSearch.
Import FAISSVectorStore.
#[local] Arguments np.rows : simpl never.
#[local] Arguments IndexFlatL2.sum_sq : simpl never.
#[local] Open Scope R_scope.

(** In exact arithmetic every distance is ordered with every other, and
    the order of the library is [nearer]. *)
Lemma search_sorted_exact (s : t R) (w : world R) (v : np.ndarray) (b : list R) (k : Z) :
  np.shp v = np.Shape1 (IndexFlatL2.d (index s)) → holds w v b → (0 <= k)%Z →
  ∃ rs st',
    search v k (s, w) = (py.Ok rs, st')
    ∧ Z.of_nat (length rs) = Z.min k (IndexFlatL2.ntotal (index s))
    ∧ (∀ r, r ∈ rs → ∃ i y, IndexFlatL2.xb (index s) !! i = Some y
         ∧ id r = Z.of_nat i
         ∧ distance r = IndexFlatL2.L2sqr (IndexFlatL2.renorm b) y)
    ∧ StronglySorted (λ r1 r2, nearer (pair_of r1) (pair_of r2)) rs
    ∧ (∀ r i y, r ∈ rs → IndexFlatL2.xb (index s) !! i = Some y →
         Z.of_nat i ∉ id <$> rs →
         nearer (pair_of r) (IndexFlatL2.L2sqr (IndexFlatL2.renorm b) y, Z.of_nat i)).
Proof.
  intros Hv Hb Hk.
  destruct (search_sorted (λ _, True)
    (λ a b c Hab Hbc, proj2 (closer_exact a c)
       (nearer_trans a b c (proj1 (closer_exact a b) Hab) (proj1 (closer_exact b c) Hbc)))
    (λ a b _ _ Hne Hn, proj2 (closer_exact b a)
       (nearer_total a b Hne (λ Hab, Hn (proj2 (closer_exact a b) Hab))))
    s w v b k Hv Hb Hk) as (rs & st' & Hs & Hlen & Hin & Hsorted & Hbest).
  { apply Forall_forall. done. }
  exists rs, st'. split; [done|]. split; [done|]. split; [done|]. split.
  - eapply StronglySorted_mono; [|exact Hsorted]. intros r1 r2. apply closer_exact.
  - intros r i y Hr Hy Hi. by apply closer_exact, Hbest.
Qed.

Lemma add_normalizes_exact (s : t R) (w : world R) (v : np.ndarray) (b : list R)
    (tx ap : string) (ch : option nat) :
  np.shp v = np.Shape1 (IndexFlatL2.d (index s)) → holds w v b →
  ∃ st' y,
    add v tx ap ch (s, w) = (py.Ok (next_id s), st')
    ∧ IndexFlatL2.xb (index st'.1) = IndexFlatL2.xb (index s) ++ [y]
    ∧ (Forall (λ x, x = 0) b → y = b)
    ∧ (¬ Forall (λ x, x = 0) b →
       sqrt (IndexFlatL2.sum_sq b) ≠ 0
       ∧ y = (λ x, x / sqrt (IndexFlatL2.sum_sq b)) <$> b
       ∧ sqrt (IndexFlatL2.sum_sq y) = 1).
Proof.
  intros Hv Hb. destruct (add_vector s w v b tx ap ch Hv Hb) as (st' & Ha & Hx).
  exists st', (IndexFlatL2.renorm b). split; [done|]. split; [done|].
  apply renorm_exact.
Qed.

End ExactSearch.

Section Ids.
Context {F : Type} `{Arith F}.
Import FAISSVectorStore.

(** C2 (amended). In every state reached by creating a store where no index
    file was, adding single vectors (a vector, or a matrix of one row),
    searching, and constructing the store again from the files it wrote,
    the ids with a metadata record are the ids of the stored vectors,
    [0 .. ntotal - 1], and [next_id] is the number of stored vectors. *)
Theorem ids_agree_reachable (ip mp : string) (s : t F) (w : world F) :
  ip ≠ mp → reachable ip mp s w →
  dom (metadata s) = index_ids (index s)
  ∧ next_id s = IndexFlatL2.ntotal (index s).
Proof.
  intros Hne Hr.
  destruct (reachable_consistent ip mp s w Hne Hr) as (_ & _ & Hids & Hn & _).
  by split.
Qed.

(** A negative [k] is passed on to the library, whose assertion [k > 0]
    fails: [search] raises, on the empty store too. *)
Lemma search_negative_count (s : t F) (w : world F) (v : np.ndarray) (k : Z) :
  np.shp v = np.Shape1 (IndexFlatL2.d (index s)) → (k < 0)%Z →
  search v k (s, w) = (py.Raise py.AssertionError, (s, renormed w v)).
Proof.
  intros Hv Hk. rewrite search_eq; cbn zeta.
  assert (Hmin : Z.min k (IndexFlatL2.ntotal (index s)) = k).
  { unfold IndexFlatL2.ntotal. lia. }
  rewrite Hmin, decide_False by lia.
  rewrite decide_True by (unfold as_matrix; by rewrite Hv).
  by rewrite (proj2 (Z.ltb_ge _ _)) by lia.
Qed.

End Ids.

(** ** Binary32: the zero vector

    In IEEE arithmetic too a vector of zeros, of either sign, is kept as it
    is: its sum of squares is [+0], nothing is divided, and no infinity or
    NaN can appear. *)

Lemma sum_sq_zero_binary32 (x : list spec_float) :
  Forall (λ xi, ∃ sg, xi = S754_zero sg) x →
  IndexFlatL2.sum_sq x = S754_zero false.
Proof.
  unfold IndexFlatL2.sum_sq.
  induction 1 as [|xi x [sg ->] _ IH]; [done|].
  cbn [foldl].
  replace (fadd f0 (fmul (S754_zero sg) (S754_zero sg))) with (@f0 _ binary32)
    by (by destruct sg).
  exact IH.
Qed.

Lemma renorm_zero_binary32 (x : list spec_float) :
  Forall (λ xi, ∃ sg, xi = S754_zero sg) x → IndexFlatL2.renorm x = x.
Proof.
  intros Hx. unfold IndexFlatL2.renorm. by rewrite (sum_sq_zero_binary32 x Hx).
Qed.

Lemma add_zero_vector_binary32 (s : FAISSVectorStore.t spec_float)
    (w : world spec_float) (v : np.ndarray) (b : list spec_float)
    (tx ap : string) (ch : option nat) :
  np.shp v = np.Shape1 (IndexFlatL2.d (FAISSVectorStore.index s)) →
  holds w v b →
  Forall (λ xi, ∃ sg, xi = S754_zero sg) b →
  ∃ st', FAISSVectorStore.add v tx ap ch (s, w)
           = (py.Ok (FAISSVectorStore.next_id s), st')
         ∧ IndexFlatL2.xb (FAISSVectorStore.index st'.1)
           = IndexFlatL2.xb (FAISSVectorStore.index s) ++ [b].
Proof.
  intros Hv Hb Hz. destruct (add_vector s w v b tx ap ch Hv Hb) as (st' & Ha & Hx).
  exists st'. split; [done|]. by rewrite Hx, (renorm_zero_binary32 b Hz).
Qed.


(** ** Binary32: the order of the distances

    The comparison of IEEE numbers is a strict order with the equality of
    the standard (the two zeros are equal); every two numbers that are not
    NaN are ordered or equal, and NaN is ordered with nothing. *)

Ltac sf_order :=
  unfold SFltb, SFeqb, SFcompare;
  repeat match goal with
         | x : spec_float |- _ => destruct x
         | s : bool |- _ => destruct s
         end;
  cbn;
  repeat match goal with
         | |- context [Z.compare ?a ?b] => destruct (Z.compare_spec a b); cbn
         | |- context [Pos.compare_cont Eq ?a ?b] =>
             change (Pos.compare_cont Eq a b) with (Pos.compare a b);
             destruct (Pos.compare_spec a b); cbn
         end;
  try done; try (intros; lia); try (left; done); try (right; left; done);
  try (right; right; done).

Lemma SFltb_trans (x y z : spec_float) :
  SFltb x y = true → SFltb y z = true → SFltb x z = true.
Proof. sf_order. Qed.

Lemma SFltb_SFeqb (x y z : spec_float) :
  SFltb x y = true → SFeqb y z = true → SFltb x z = true.
Proof. sf_order. Qed.

Lemma SFeqb_SFltb (x y z : spec_float) :
  SFeqb x y = true → SFltb y z = true → SFltb x z = true.
Proof. sf_order. Qed.

Lemma SFeqb_trans (x y z : spec_float) :
  SFeqb x y = true → SFeqb y z = true → SFeqb x z = true.
Proof. sf_order. Qed.

Lemma SFeqb_sym (x y : spec_float) : SFeqb x y = true → SFeqb y x = true.
Proof. sf_order. Qed.

Lemma SF_trichotomy (x y : spec_float) :
  x ≠ S754_nan → y ≠ S754_nan →
  SFltb x y = true ∨ SFeqb x y = true ∨ SFltb y x = true.
Proof. sf_order. Qed.

Lemma closer_trans_binary32 (a b c : spec_float * Z) :
  comes_before a b → comes_before b c → comes_before a c.
Proof.
  unfold comes_before, IndexFlatL2.closer; cbn.
  intros [Hab|[Hab Hi]%andb_true_iff]%orb_true_iff
         [Hbc|[Hbc Hj]%andb_true_iff]%orb_true_iff; apply orb_true_iff.
  - left. by eapply SFltb_trans.
  - left. by eapply SFltb_SFeqb.
  - left. by eapply SFeqb_SFltb.
  - right. apply andb_true_iff. split; [by eapply SFeqb_trans|].
    apply Z.ltb_lt in Hi, Hj. apply Z.ltb_lt. lia.
Qed.

Lemma closer_total_binary32 (a b : spec_float * Z) :
  a.1 ≠ S754_nan → b.1 ≠ S754_nan → a.2 ≠ b.2 →
  ¬ comes_before a b → comes_before b a.
Proof.
  unfold comes_before, IndexFlatL2.closer; cbn.
  intros Ha Hb Hne Hn. apply orb_true_iff.
  destruct (SF_trichotomy a.1 b.1 Ha Hb) as [Hlt|[Heq|Hgt]].
  - destruct Hn. by rewrite Hlt.
  - right. apply andb_true_iff. split; [by apply SFeqb_sym|].
    apply Z.ltb_lt. destruct (Z.lt_trichotomy a.2 b.2) as [Hi|[Hi|Hi]]; [|done|done].
    destruct Hn. rewrite Heq. apply Z.ltb_lt in Hi. rewrite Hi. apply orb_true_r.
  - by left.
Qed.

(** * Normalisation and order in both arithmetics *)

Section Arithmetic.
Import FAISSVectorStore.

(** C8. For a live query vector of the dimension of the index and a count
    [k] that is not negative, [search] returns [min(k, ntotal)] results.
    Every result is a stored vector with its squared distance to the
    normalised query; the results are in ascending distance, and of two
    results at the same distance the one with the lower id is first; and
    every stored vector that is not returned is no nearer than any that is,
    its id being higher when the distance is the same.  This holds in
    binary32, with the comparison of IEEE numbers, when no distance is NaN,
    and in exact arithmetic always. *)
Theorem search_nearest :
  (∀ (s : t spec_float) (w : world spec_float) (v : np.ndarray)
     (b : list spec_float) (k : Z),
     np.shp v = np.Shape1 (IndexFlatL2.d (index s)) → holds w v b → (0 ≤ k)%Z →
     Forall (λ p, p.1 ≠ S754_nan)
       (IndexFlatL2.scored (IndexFlatL2.renorm b) (IndexFlatL2.xb (index s))) →
     ∃ rs st',
       search v k (s, w) = (py.Ok rs, st')
       ∧ Z.of_nat (length rs) = Z.min k (IndexFlatL2.ntotal (index s))
       ∧ (∀ r, r ∈ rs → ∃ i y, IndexFlatL2.xb (index s) !! i = Some y
            ∧ id r = Z.of_nat i
            ∧ distance r = IndexFlatL2.L2sqr (IndexFlatL2.renorm b) y)
       ∧ StronglySorted (λ r1 r2, comes_before (pair_of r1) (pair_of r2)) rs
       ∧ (∀ r i y, r ∈ rs → IndexFlatL2.xb (index s) !! i = Some y →
            Z.of_nat i ∉ id <$> rs →
            comes_before (pair_of r)
              (IndexFlatL2.L2sqr (IndexFlatL2.renorm b) y, Z.of_nat i)))
  ∧ (∀ (s : t R) (w : world R) (v : np.ndarray) (b : list R) (k : Z),
     np.shp v = np.Shape1 (IndexFlatL2.d (index s)) → holds w v b → (0 ≤ k)%Z →
     ∃ rs st',
       search v k (s, w) = (py.Ok rs, st')
       ∧ Z.of_nat (length rs) = Z.min k (IndexFlatL2.ntotal (index s))
       ∧ (∀ r, r ∈ rs → ∃ i y, IndexFlatL2.xb (index s) !! i = Some y
            ∧ id r = Z.of_nat i
            ∧ distance r = IndexFlatL2.L2sqr (IndexFlatL2.renorm b) y)
       ∧ StronglySorted (λ r1 r2, nearer (pair_of r1) (pair_of r2)) rs
       ∧ (∀ r i y, r ∈ rs → IndexFlatL2.xb (index s) !! i = Some y →
            Z.of_nat i ∉ id <$> rs →
            nearer (pair_of r)
              (IndexFlatL2.L2sqr (IndexFlatL2.renorm b) y, Z.of_nat i))).
Proof.
  split.
  - intros s w v b k Hv Hb Hk Hn.
    exact (search_sorted (λ x, x ≠ S754_nan) closer_trans_binary32
             closer_total_binary32 s w v b k Hv Hb Hk Hn).
  - exact search_sorted_exact.
Qed.

(** C9 (amended). [add] with a live vector of the dimension of the index
    appends one entry to the index.  In binary32: when the square root of
    the sum of the squares of the vector is zero the entry is the vector as
    it is and nothing is divided, which is so for the vector of zeros, of
    either sign; otherwise every component is divided by that root.  In
    exact arithmetic: the zero vector is stored as it is, and any other
    vector is divided by its norm, which is not zero, and the entry has
    norm one. *)
Theorem add_normalizes :
  (∀ (s : t spec_float) (w : world spec_float) (v : np.ndarray)
     (b : list spec_float) (tx ap : string) (ch : option nat),
     np.shp v = np.Shape1 (IndexFlatL2.d (index s)) → holds w v b →
     ∃ st' y,
       add v tx ap ch (s, w) = (py.Ok (next_id s), st')
       ∧ IndexFlatL2.xb (index st'.1) = IndexFlatL2.xb (index s) ++ [y]
       ∧ (Forall (λ x, ∃ sg, x = S754_zero sg) b → y = b)
       ∧ (feqb (fsqrt (IndexFlatL2.sum_sq b)) f0 = true → y = b)
       ∧ (feqb (fsqrt (IndexFlatL2.sum_sq b)) f0 = false →
          y = (λ x, fdiv x (fsqrt (IndexFlatL2.sum_sq b))) <$> b))
  ∧ (∀ (s : t R) (w : world R) (v : np.ndarray) (b : list R)
       (tx ap : string) (ch : option nat),
     np.shp v = np.Shape1 (IndexFlatL2.d (index s)) → holds w v b →
     ∃ st' y,
       add v tx ap ch (s, w) = (py.Ok (next_id s), st')
       ∧ IndexFlatL2.xb (index st'.1) = IndexFlatL2.xb (index s) ++ [y]
       ∧ (Forall (λ x, x = 0%R) b → y = b)
       ∧ (¬ Forall (λ x, x = 0%R) b →
          sqrt (IndexFlatL2.sum_sq b) ≠ 0%R
          ∧ y = (λ x, (x / sqrt (IndexFlatL2.sum_sq b))%R) <$> b
          ∧ sqrt (IndexFlatL2.sum_sq y) = 1%R)).
Proof.
  split.
  - intros s w v b tx ap ch Hv Hb.
    destruct (add_vector s w v b tx ap ch Hv Hb) as (st' & Ha & Hx).
    exists st', (IndexFlatL2.renorm b). split; [done|]. split; [done|].
    split; [apply renorm_zero_binary32|].
    unfold IndexFlatL2.renorm. split; by intros ->.
  - exact add_normalizes_exact.
Qed.

End Arithmetic.

(** * The properties on the sample data *)

Section Samples.
Import FAISSVectorStore.

Lemma ex_paths_differ : ex_index_path ≠ ex_metadata_path.
Proof. discriminate. Defined.

Lemma ex_dirname : os.dirname ex_index_path ≠ "".
Proof. discriminate. Defined.

Lemma ex_construct :
  __init__ 2 ex_index_path ex_metadata_path ex_world = (py.Ok ex_store, ex_created).
Proof. vm_compute. reflexivity. Defined.

(** [search] with a vector of three components on the empty store of
    dimension two returns the empty list. *)
Lemma search_mismatch_counterexample :
  (__init__ 2 ex_index_path ex_metadata_path ex_world).1 = py.Ok ex_store
  ∧ np.shp ex_vec3 = np.Shape1 3
  ∧ 3 ≠ IndexFlatL2.d (index ex_store)
  ∧ (search ex_vec3 5 (ex_store, ex_created)).1 = py.Ok [].
Proof.
  split; [vm_compute; reflexivity|]. split; [reflexivity|].
  split; [discriminate|]. vm_compute. reflexivity.
Qed.

Lemma dimension_mismatch_witness :
  np.shp ex_vec3 = np.Shape1 3
  ∧ 3 ≠ IndexFlatL2.d (index ex_store)
  ∧ add ex_vec3 "a" "p" None (ex_store, ex_created)
    = (py.Raise py.AssertionError, (ex_store, renormed ex_created ex_vec3)).
Proof.
  assert (Hv : np.shp ex_vec3 = np.Shape1 3) by reflexivity.
  assert (Hn : 3 ≠ IndexFlatL2.d (index ex_store)) by discriminate.
  exact (conj Hv (conj Hn
    (proj1 (dimension_mismatch ex_store ex_created ex_vec3 3 "a" "p" None 5 Hv Hn)))).
Defined.

(** [add] with a matrix of two rows stores two vectors under one id; and a
    store constructed on an index file of two vectors and a metadata
    document without records starts with no id for them. *)
Lemma matrix_add_counterexample :
  (add ex_mat "a" "p" None (ex_store, ex_created)).1 = py.Ok 0%Z
  ∧ dom (metadata (add ex_mat "a" "p" None (ex_store, ex_created)).2.1)
    ≠ index_ids (index (add ex_mat "a" "p" None (ex_store, ex_created)).2.1)
  ∧ (__init__ 2 ex_index_path ex_metadata_path ex_disk_diverged).1
    = py.Ok ex_loaded_diverged
  ∧ dom (metadata ex_loaded_diverged) ≠ index_ids (index ex_loaded_diverged).
Proof.
  split; [vm_compute; reflexivity|].
  split; [apply (proj1 (bool_decide_eq_false _)); vm_compute; reflexivity|].
  split; [vm_compute; reflexivity|].
  apply (proj1 (bool_decide_eq_false _)); vm_compute; reflexivity.
Qed.

Lemma ex_added_reachable :
  reachable ex_index_path ex_metadata_path ex_added.1 ex_added.2.
Proof.
  eapply (reach_add _ _ ex_store ex_created ex_vec2 "a" "p" (Some 0) (py.Ok 0%Z)).
  - eapply (reach_create _ _ 2 ex_world); [reflexivity|exact ex_construct].
  - reflexivity.
  - vm_compute. reflexivity.
Defined.

Lemma ids_agree_reachable_witness :
  ex_index_path ≠ ex_metadata_path
  ∧ reachable ex_index_path ex_metadata_path ex_added.1 ex_added.2
  ∧ dom (metadata ex_added.1) = index_ids (index ex_added.1)
  ∧ next_id ex_added.1 = IndexFlatL2.ntotal (index ex_added.1).
Proof.
  exact (conj ex_paths_differ (conj ex_added_reachable
    (ids_agree_reachable ex_index_path ex_metadata_path ex_added.1 ex_added.2
       ex_paths_differ ex_added_reachable))).
Defined.

Lemma index_roundtrip_witness :
  index_path ex_added.1 ≠ metadata_path ex_added.1
  ∧ os.dirname (index_path ex_added.1) ≠ ""
  ∧ ∃ s' w',
      __init__ 7 (index_path ex_added.1) (metadata_path ex_added.1)
        (persist (ex_added.1, ex_added.2)).2.2 = (py.Ok s', w')
      ∧ IndexFlatL2.ntotal (index s') = IndexFlatL2.ntotal (index ex_added.1)
      ∧ IndexFlatL2.d (index s') = IndexFlatL2.d (index ex_added.1)
      ∧ IndexFlatL2.xb (index s') = IndexFlatL2.xb (index ex_added.1).
Proof.
  assert (Hp : index_path ex_added.1 ≠ metadata_path ex_added.1)
    by (vm_compute; discriminate).
  assert (Hd : os.dirname (index_path ex_added.1) ≠ "")
    by (vm_compute; discriminate).
  exact (conj Hp (conj Hd (index_roundtrip ex_added.1 ex_added.2 7 Hp Hd))).
Defined.

(** An index file of dimension four, a store requested for dimension
    eight: the constructor returns a store that reports eight over an index
    of dimension four. *)
Lemma startup_dimension_counterexample :
  (__init__ 8 ex_index_path ex_metadata_path ex_disk_dim4).1
    = py.Ok ex_loaded_dim4
  ∧ stats_dimension (get_stats ex_loaded_dim4) = 8
  ∧ IndexFlatL2.d (index ex_loaded_dim4) = 4.
Proof. split; [vm_compute; reflexivity|]. split; reflexivity. Qed.

Lemma startup_index_witness :
  os.dirname ex_index_path ≠ ""
  ∧ (∃ s w', __init__ 8 ex_index_path ex_metadata_path ex_disk_dim4 = (py.Ok s, w')
             ∧ index s = index ex_loaded_dim4 ∧ dimension s = 8)
  ∧ (∃ w', __init__ 2 ex_index_path ex_metadata_path ex_world
           = (py.Ok (Store 2 ex_index_path ex_metadata_path ∅ 0 (IndexFlatL2.new 2)), w')).
Proof.
  split; [exact ex_dirname|]. split.
  - apply (proj1 (startup_index 8 ex_index_path ex_metadata_path ex_disk_dim4 ex_dirname)).
    + reflexivity.
    + left. reflexivity.
  - apply (proj2 (startup_index 2 ex_index_path ex_metadata_path ex_world ex_dirname)).
    reflexivity.
Defined.



Lemma add_ids_sequential_witness :
  files ex_world !! ex_index_path = None
  ∧ __init__ 2 ex_index_path ex_metadata_path ex_world = (py.Ok ex_store, ex_created)
  ∧ Forall (λ c, np.shp (call_embedding c) = np.Shape1 2) ex_calls
  ∧ (add_all ex_calls (ex_store, ex_created)).1 = py.Ok (Z.of_nat <$> seq 0 (length ex_calls)).
Proof.
  assert (Hf : files ex_world !! ex_index_path = None) by reflexivity.
  assert (Hc : Forall (λ c, np.shp (call_embedding c) = np.Shape1 2) ex_calls)
    by repeat constructor.
  exact (conj Hf (conj ex_construct (conj Hc
    (add_ids_sequential 2 ex_index_path ex_metadata_path ex_world
       ex_store ex_created ex_calls Hf ex_construct Hc)))).
Defined.

(** [search] with [k = -1] on the empty store raises. *)
Lemma search_negative_counterexample :
  np.shp ex_vec2 = np.Shape1 (IndexFlatL2.d (index ex_store))
  ∧ IndexFlatL2.ntotal (index ex_store) = 0%Z
  ∧ (search ex_vec2 (-1) (ex_store, ex_created)).1 = py.Raise py.AssertionError.
Proof. split; [reflexivity|]. split; [reflexivity|]. vm_compute. reflexivity. Qed.

Lemma search_count_witness :
  np.shp ex_vec2 = np.Shape1 (IndexFlatL2.d (index ex_added.1))
  ∧ (0 ≤ 5)%Z
  ∧ ∃ rs st', search ex_vec2 5 (ex_added.1, ex_added.2) = (py.Ok rs, st')
              ∧ Z.of_nat (length rs) = Z.min 5 (IndexFlatL2.ntotal (index ex_added.1)).
Proof.
  assert (Hv : np.shp ex_vec2 = np.Shape1 (IndexFlatL2.d (index ex_added.1)))
    by (vm_compute; reflexivity).
  assert (Hk : (0 ≤ 5)%Z) by discriminate.
  exact (conj Hv (conj Hk (search_count ex_added.1 ex_added.2 ex_vec2 5 Hv Hk))).
Defined.

(** After [add] the array of the caller holds [1, 0] where it held [2, 0];
    and appending to the [chunks] of a search result changes the segments
    of the record in the store. *)
Lemma shared_counterexample :
  buffer ex_added.2 ex_vec2 ≠ buffer ex_created ex_vec2
  ∧ ∃ r st e,
      search ex_vec2 1 (ex_added.1, ex_added.2) = (py.Ok [r], st)
      ∧ metadata st.1 !! 0%Z = Some e
      ∧ list_at (list_append (res_chunks r) ex_chunk st.2).2 (chunks e)
        ≠ list_at st.2 (chunks e).
Proof.
  split.
  - intros Heq. vm_compute in Heq. discriminate.
  - eexists _, _, _. split; [vm_compute; reflexivity|].
    split; [vm_compute; reflexivity|].
    intros Heq. vm_compute in Heq. discriminate.
Qed.

Lemma shared_by_reference_witness :
  np.shp ex_vec2 = np.Shape1 2
  ∧ holds ex_created ex_vec2 [ex_two; ex_zero]
  ∧ buffer (add ex_vec2 "a" "p" (Some 0) (ex_store, ex_created)).2.2 ex_vec2
    = IndexFlatL2.renorm [ex_two; ex_zero].
Proof.
  assert (Hv : np.shp ex_vec2 = np.Shape1 2) by reflexivity.
  assert (Hb : holds ex_created ex_vec2 [ex_two; ex_zero]) by (split; reflexivity).
  exact (conj Hv (conj Hb
    (proj1 (shared_by_reference ex_store ex_created ex_vec2 2
              [ex_two; ex_zero] "a" "p" (Some 0) 1 Hv Hb)))).
Defined.

Lemma rx_vec_shape : np.shp rx_vec = np.Shape1 (IndexFlatL2.d (index rx_store)).
Proof. reflexivity. Defined.

Lemma rx_vec_holds : holds rx_world rx_vec [2%R].
Proof. split; reflexivity. Defined.

(** The scenario of the specification: both stored vectors are at the
    distance two of the query, and the one with the id zero comes first. *)
Lemma search_tie_binary32 :
  pair_of <$> match (search sc_e2 2 sc_state).1 with py.Ok rs => rs | _ => [] end
  = [(ex_two, 0%Z); (ex_two, 1%Z)].
Proof. vm_compute. reflexivity. Qed.

Lemma rx_store3_shape : np.shp rx_vec = np.Shape1 (IndexFlatL2.d (index rx_store3)).
Proof. reflexivity. Defined.

Lemma search_nearest_witness :
  (np.shp sc_e2 = np.Shape1 (IndexFlatL2.d (index sc_state.1))
   ∧ holds sc_state.2 sc_e2 [ex_zero; ex_zero; ex_one; ex_zero]
   ∧ (0 ≤ 2)%Z
   ∧ Forall (λ p, p.1 ≠ S754_nan)
       (IndexFlatL2.scored (IndexFlatL2.renorm [ex_zero; ex_zero; ex_one; ex_zero])
          (IndexFlatL2.xb (index sc_state.1)))
   ∧ ∃ rs st',
       search sc_e2 2 (sc_state.1, sc_state.2) = (py.Ok rs, st')
       ∧ Z.of_nat (length rs) = Z.min 2 (IndexFlatL2.ntotal (index sc_state.1))
       ∧ StronglySorted (λ r1 r2, comes_before (pair_of r1) (pair_of r2)) rs)
  ∧ (np.shp rx_vec = np.Shape1 (IndexFlatL2.d (index rx_store3))
     ∧ holds rx_world rx_vec [2%R]
     ∧ (0 ≤ 2)%Z
     ∧ ∃ rs st',
         search rx_vec 2 (rx_store3, rx_world) = (py.Ok rs, st')
         ∧ Z.of_nat (length rs) = Z.min 2 (IndexFlatL2.ntotal (index rx_store3))
         ∧ StronglySorted (λ r1 r2, nearer (pair_of r1) (pair_of r2)) rs
         ∧ (∀ r i y, r ∈ rs → IndexFlatL2.xb (index rx_store3) !! i = Some y →
              Z.of_nat i ∉ id <$> rs →
              nearer (pair_of r)
                (IndexFlatL2.L2sqr (IndexFlatL2.renorm [2%R]) y, Z.of_nat i))).
Proof.
  assert (Hv : np.shp sc_e2 = np.Shape1 (IndexFlatL2.d (index sc_state.1)))
    by (vm_compute; reflexivity).
  assert (Hb : holds sc_state.2 sc_e2 [ex_zero; ex_zero; ex_one; ex_zero])
    by (split; vm_compute; reflexivity).
  assert (Hk : (0 ≤ 2)%Z) by discriminate.
  assert (Hn : Forall (λ p : spec_float * Z, p.1 ≠ S754_nan)
       (IndexFlatL2.scored (IndexFlatL2.renorm [ex_zero; ex_zero; ex_one; ex_zero])
          (IndexFlatL2.xb (index sc_state.1))))
    by (vm_compute; repeat constructor; discriminate).
  destruct (proj1 search_nearest sc_state.1 sc_state.2 sc_e2 _ 2%Z Hv Hb Hk Hn)
    as (rs & st' & Hs & Hl & _ & Hsorted & _).
  destruct (proj2 search_nearest rx_store3 rx_world rx_vec [2%R] 2%Z
              rx_store3_shape rx_vec_holds Hk)
    as (rs' & st'' & Hs' & Hl' & _ & Hsorted' & Hbest').
  exact (conj
    (conj Hv (conj Hb (conj Hk (conj Hn
       (ex_intro _ rs (ex_intro _ st' (conj Hs (conj Hl Hsorted))))))))
    (conj rx_store3_shape (conj rx_vec_holds (conj Hk
       (ex_intro _ rs' (ex_intro _ st''
          (conj Hs' (conj Hl' (conj Hsorted' Hbest'))))))))).
Defined.

Lemma rx_zero_vec_holds : holds rx_world rx_zero_vec [0%R].
Proof. split; reflexivity. Defined.

(** In binary32 [add] stores the vector [2^-100, 0], which is not zero, as
    it is, since the sum of its squares is zero in binary32: the entry has
    the norm [2^-100].  It stores [2^100, 0] as the zero vector and
    [inf, 0] as [NaN, 0]. *)
Lemma add_normalizes_counterexample :
  (∃ st', add ex_tiny_vec "a" "p" None (ex_store, ex_world_edges) = (py.Ok 0%Z, st')
          ∧ IndexFlatL2.xb (index st'.1) = [[ex_tiny; ex_zero]])
  ∧ ex_tiny ≠ S754_zero false ∧ ex_tiny ≠ S754_zero true
  ∧ fsqrt (IndexFlatL2.sum_sq [ex_tiny; ex_zero]) = S754_zero false
  ∧ (∃ st', add ex_big_vec "a" "p" None (ex_store, ex_world_edges) = (py.Ok 0%Z, st')
            ∧ IndexFlatL2.xb (index st'.1) = [[ex_zero; ex_zero]])
  ∧ (∃ st', add ex_inf_vec "a" "p" None (ex_store, ex_world_edges) = (py.Ok 0%Z, st')
            ∧ IndexFlatL2.xb (index st'.1) = [[S754_nan; ex_zero]]).
Proof.
  split; [eexists; split; vm_compute; reflexivity|].
  split; [discriminate|]. split; [discriminate|].
  split; [vm_compute; reflexivity|].
  split; eexists; split; vm_compute; reflexivity.
Qed.

(** The zero vector in binary32, with a negative zero, and the vectors [0]
    and [2] in exact arithmetic. *)
Lemma add_normalizes_witness :
  (np.shp ex_zero_vec = np.Shape1 (IndexFlatL2.d (index ex_store))
   ∧ holds ex_world_edges ex_zero_vec [ex_zero; S754_zero true]
   ∧ ∃ st', add ex_zero_vec "a" "p" None (ex_store, ex_world_edges)
              = (py.Ok (next_id ex_store), st')
            ∧ IndexFlatL2.xb (index st'.1)
              = IndexFlatL2.xb (index ex_store) ++ [[ex_zero; S754_zero true]])
  ∧ (np.shp rx_zero_vec = np.Shape1 (IndexFlatL2.d (index rx_store))
     ∧ holds rx_world rx_zero_vec [0%R]
     ∧ ∃ st', add rx_zero_vec "b" "q" None (rx_store, rx_world)
                = (py.Ok (next_id rx_store), st')
              ∧ IndexFlatL2.xb (index st'.1) = IndexFlatL2.xb (index rx_store) ++ [[0%R]]).
Proof.
  assert (Hv32 : np.shp ex_zero_vec = np.Shape1 (IndexFlatL2.d (index ex_store)))
    by reflexivity.
  assert (Hb32 : holds ex_world_edges ex_zero_vec [ex_zero; S754_zero true])
    by (split; reflexivity).
  destruct (proj1 add_normalizes ex_store ex_world_edges ex_zero_vec
              [ex_zero; S754_zero true] "a" "p" None Hv32 Hb32)
    as (st32 & y32 & Ha32 & Hx32 & Hz32 & _).
  assert (Hy32 : y32 = [ex_zero; S754_zero true]).
  { apply Hz32. repeat constructor; by eexists. }
  assert (Hv : np.shp rx_zero_vec = np.Shape1 (IndexFlatL2.d (index rx_store)))
    by reflexivity.
  destruct (proj2 add_normalizes rx_store rx_world rx_zero_vec [0%R] "b" "q" None
              Hv rx_zero_vec_holds) as (st' & y & Ha & Hx & Hz & _).
  assert (Hy : y = [0%R]) by (apply Hz; by repeat constructor).
  exact (conj
    (conj Hv32 (conj Hb32
       (ex_intro _ st32 (conj Ha32 (eq_ind y32 (λ y', _ = _ ++ [y']) Hx32 _ Hy32)))))
    (conj Hv (conj rx_zero_vec_holds
       (ex_intro _ st' (conj Ha (eq_ind y (λ y', _ = _ ++ [y']) Hx _ Hy)))))).
Defined.

End Samples.


(** * Further properties of the store *)

Section More.
Context {F : Type} `{Arith F}.
Import FAISSVectorStore.
#[local] Arguments np.rows : simpl never.

Lemma chunks_world_lists ch (w : world F) :
  ∃ fresh, lists (chunks_world ch w) = lists w ++ fresh.
Proof.
  destruct ch as [c|]; cbn; [destruct (list_at w c)|]; cbn;
    first [by exists [[]] | exists []; by rewrite app_nil_r].
Qed.

(** X1. [add] has two outcomes.  When the rows of the embedding have the width
    of the index it returns [next_id]; otherwise it raises the assertion
    error of the library, and the store object, the files and the list
    objects are as before the call. *)
Theorem add_outcome (s : t F) (w : world F) (a : np.ndarray)
    (tx ap : string) (ch : option nat) :
  ((as_matrix a).2 = IndexFlatL2.d (index s)
   ∧ ∃ st', add a tx ap ch (s, w) = (py.Ok (next_id s), st'))
  ∨ ((as_matrix a).2 ≠ IndexFlatL2.d (index s)
     ∧ ∃ w', add a tx ap ch (s, w) = (py.Raise py.AssertionError, (s, w'))
             ∧ files w' = files w ∧ lists w' = lists w).
Proof.
  rewrite add_eq. case_decide; [left|right]; (split; [done|]).
  - by eexists.
  - by eexists.
Qed.

(** X2. A successful [add] appends every row of the embedding to the index,
    but records one id: the count grows by the number of rows, [next_id]
    by one, and one record is put under the id returned.  The dimension of
    the index and the attributes [dimension], [index_path] and
    [metadata_path] stay. *)
Theorem add_rows (s : t F) (w : world F) (a : np.ndarray)
    (tx ap : string) (ch : option nat) (i : Z) (st' : state F) :
  add a tx ap ch (s, w) = (py.Ok i, st') →
  i = next_id s
  ∧ IndexFlatL2.ntotal (index st'.1)
    = (IndexFlatL2.ntotal (index s) + Z.of_nat (as_matrix a).1)%Z
  ∧ next_id st'.1 = (next_id s + 1)%Z
  ∧ dom (metadata st'.1) = {[ i ]} ∪ dom (metadata s)
  ∧ IndexFlatL2.d (index st'.1) = IndexFlatL2.d (index s)
  ∧ dimension st'.1 = dimension s
  ∧ index_path st'.1 = index_path s
  ∧ metadata_path st'.1 = metadata_path s.
Proof.
  rewrite add_eq. case_decide; [|done]. intros [= <- <-].
  unfold added; cbn. repeat split; try done.
  - unfold IndexFlatL2.ntotal; cbn. rewrite length_app, rows_length. lia.
  - by rewrite dom_insert_L.
Qed.

Lemma to_disk_lists (w1 w2 : world F) (m : gmap Z entry) :
  lists w1 = lists w2 → to_disk w1 m = to_disk w2 m.
Proof. intros Hl. unfold to_disk, list_at. by rewrite Hl. Qed.

(** X3. When [add] has returned and the two paths differ, the disk holds what
    the memory holds: reading the index file gives the index of the store,
    and the metadata document gives [next_id] and every record with the
    contents of its list of segments. *)
Theorem add_persists (s : t F) (w : world F) (a : np.ndarray)
    (tx ap : string) (ch : option nat) (i : Z) (s' : t F) (w' : world F) :
  index_path s ≠ metadata_path s →
  add a tx ap ch (s, w) = (py.Ok i, (s', w')) →
  faiss.read_index (index_path s') w' = (py.Ok (index s'), w')
  ∧ json.load (metadata_path s') w'
    = (py.Ok (json.Object (Some (next_id s')) (Some (to_disk w' (metadata s')))), w').
Proof.
  intros Hne. rewrite add_eq. case_decide; [|done]. intros [= <- <- <-].
  unfold faiss.read_index, json.load; cbn. split.
  - rewrite lookup_insert_ne by done. by rewrite lookup_insert_eq.
  - by rewrite lookup_insert_eq.
Qed.

(** X4. When the two paths are the same file, [_save_metadata] overwrites the
    index [_save_index] has just written: after [add] has returned the file
    holds the metadata document, and no store can be constructed on these
    paths. *)
Theorem add_same_path (s : t F) (w : world F) (a : np.ndarray)
    (tx ap : string) (ch : option nat) (i : Z) (s' : t F) (w' : world F) (dim : nat) :
  index_path s = metadata_path s →
  os.dirname (index_path s) ≠ "" →
  add a tx ap ch (s, w) = (py.Ok i, (s', w')) →
  files w' !! index_path s'
  = Some (JsonFile (Some (next_id s')) (Some (to_disk w' (metadata s'))))
  ∧ __init__ dim (index_path s') (metadata_path s') w' = (py.Raise py.RuntimeError, w').
Proof.
  intros Heq Hd. rewrite add_eq. case_decide; [|done]. intros [= <- <- <-]. cbn.
  assert (Hf : ∀ f (fs : gmap string (file F)),
            <[metadata_path s := f]> fs !! index_path s = Some f).
  { intros f fs. rewrite Heq. apply lookup_insert_eq. }
  split; [apply Hf|].
  eapply init_unreadable; [done|apply Hf|].
  intros ix. discriminate.
Qed.

Lemma formatted_list_lists (md : gmap Z entry) l (w : world F) :
  ∃ fresh, lists (formatted_list md l w).2 = lists w ++ fresh
           ∧ Forall (λ c, c = []) fresh.
Proof.
  revert w. induction l as [|[dist idx] l IH]; intros w; cbn.
  - exists []. by rewrite app_nil_r.
  - destruct (decide _); [apply IH|]. cbn.
    destruct (IH (result_world md idx w)) as (fresh & -> & Hf).
    unfold result_world. destruct (md !! idx); [by eexists|].
    cbn. exists ([] :: fresh). split; [by rewrite <- app_assoc|by constructor].
Qed.

(** X5. [search] reads the store: whatever it returns or raises, the store
    object and the files are as before; the buffers of all arrays but the
    query are as before; and the list objects are as before, followed by the
    empty lists made for results without a record. *)
Theorem search_readonly (s : t F) (w : world F) (a : np.ndarray) (k : Z) :
  ∃ w' fresh,
    (search a k (s, w)).2 = (s, w')
    ∧ files w' = files w
    ∧ lists w' = lists w ++ fresh ∧ Forall (λ c, c = []) fresh
    ∧ ∀ l, l ≠ np.data a → arrays w' !! l = arrays w !! l.
Proof.
  assert (Hr : ∀ l, l ≠ np.data a → arrays (renormed w a) !! l = arrays w !! l).
  { intros l Hl. unfold renormed; cbn. by rewrite list_lookup_insert_ne. }
  assert (Hbase : ∃ w' fresh, (s, renormed w a) = (s, w') ∧ files w' = files w
            ∧ lists w' = lists w ++ fresh ∧ Forall (λ c, c = []) fresh
            ∧ ∀ l, l ≠ np.data a → arrays w' !! l = arrays w !! l).
  { exists (renormed w a), []. rewrite app_nil_r. by repeat split. }
  rewrite search_eq; cbn zeta. repeat case_decide; try exact Hbase.
  destruct (0 <? _)%Z; [|exact Hbase].
  destruct (np.rows _ _ _) as [|q qs]; [exact Hbase|].
  unfold formatted; cbn.
  destruct (formatted_list_lists (metadata s)
    (IndexFlatL2.knn (IndexFlatL2.xb (index s)) q
       (Z.to_nat (Z.min k (IndexFlatL2.ntotal (index s))))) (renormed w a))
    as (fresh & Hl & Hf).
  eexists _, fresh. split; [done|]. rewrite formatted_list_files, formatted_list_arrays.
  by repeat split.
Qed.

Lemma formatted_list_filter (md : gmap Z entry) l (w : world F) :
  pair_of <$> (formatted_list md l w).1 = filter (λ p, p.2 ≠ (-1)%Z) l.
Proof.
  revert w. induction l as [|[dist idx] l IH]; intros w; [done|].
  cbn [formatted_list].
  destruct (decide (idx = (-1)%Z)) as [->|Hn].
  - rewrite filter_cons_False by (cbn; tauto). apply IH.
  - rewrite filter_cons_True by done. cbn [fst fmap list_fmap]. rewrite IH. f_equal.
    unfold result_of, pair_of. by destruct (md !! idx).
Qed.

(** X6. The loop of [search], on any answer of the library: it drops the slots
    labelled [-1] and keeps the others, in order, with the id and the
    distance of the slot. *)
Theorem search_loop_drops_unfilled (md : gmap Z entry) (l : list (F * Z)) (w : world F) :
  ∃ rs w', format_results md l w = (py.Ok rs, w')
           ∧ pair_of <$> rs = filter (λ p, p.2 ≠ (-1)%Z) l.
Proof.
  rewrite format_results_eq. eexists _, _. split; [done|]. apply formatted_list_filter.
Qed.

Lemma formatted_list_fields (md : gmap Z entry) l (w : world F) r :
  r ∈ (formatted_list md l w).1 →
  similarity_score r = fdiv f1 (fadd f1 (distance r))
  ∧ match md !! id r with
    | Some e => res_text r = text e ∧ res_audio_path r = audio_path e
                ∧ res_chunks r = chunks e
    | None => res_text r = "" ∧ res_audio_path r = ""
              ∧ length (lists w) ≤ res_chunks r
              ∧ list_at (formatted_list md l w).2 (res_chunks r) = []
    end.
Proof.
  revert w. induction l as [|[dist idx] l IH]; intros w; cbn;
    [intros Hr; by apply elem_of_nil in Hr|].
  destruct (decide _); [apply IH|]. cbn.
  intros [->|Hr]%elem_of_cons.
  - unfold result_of, result_world.
    destruct (md !! idx) as [e|] eqn:E; cbn; rewrite E; [done|].
    repeat split; [done|].
    destruct (formatted_list_lists md l (World (files w) (arrays w) (lists w ++ [[]])))
      as (fresh & Hl & _).
    unfold list_at. rewrite Hl; cbn.
    apply list_lookup_total_correct.
    rewrite <- app_assoc. by rewrite lookup_app_r, Nat.sub_diag.
  - destruct (IH _ Hr) as [Hs Hm]. split; [done|].
    destruct (md !! id r); [done|].
    destruct Hm as (? & ? & Hlen & ?). repeat split; try done.
    unfold result_world in Hlen. destruct (md !! idx); [done|].
    cbn in Hlen. rewrite length_app in Hlen. lia.
Qed.

(** X7. Every result of [search] carries the similarity score
    [1 / (1 + distance)].  Its text and audio path, and its list of
    segments, are those of the record of its id; when the store has no
    record for the id, the text and the audio path are empty and the list of
    segments is a new, empty list. *)
Theorem search_result_fields (s : t F) (w : world F) (a : np.ndarray) (k : Z)
    (rs : list (result F)) (st' : state F) (r : result F) :
  search a k (s, w) = (py.Ok rs, st') → r ∈ rs →
  similarity_score r = fdiv f1 (fadd f1 (distance r))
  ∧ match metadata s !! id r with
    | Some e => res_text r = text e ∧ res_audio_path r = audio_path e
                ∧ res_chunks r = chunks e
    | None => res_text r = "" ∧ res_audio_path r = ""
              ∧ length (lists w) ≤ res_chunks r
              ∧ list_at st'.2 (res_chunks r) = []
    end.
Proof.
  rewrite search_eq; cbn zeta. intros Hs Hr.
  case_decide; [injection Hs as <- _; by apply elem_of_nil in Hr|].
  case_decide; [|done]. destruct (0 <? _)%Z; [|done].
  destruct (np.rows _ _ _); [done|].
  unfold formatted in Hs. injection Hs as <- <-.
  by apply formatted_list_fields in Hr.
Qed.

End More.

Section Reopen.
Context {F : Type} `{Arith F}.
Import FAISSVectorStore.
#[local] Arguments np.rows : simpl never.

Lemma from_disk_map_notin (l : list (Z * disk_entry F)) m n k :
  k ∉ l.*1 → from_disk_map l m n !! k = m !! k.
Proof.
  revert m n. induction l as [|[k' v] l IH]; intros m n Hk; cbn; [done|].
  rewrite fmap_cons, not_elem_of_cons in Hk. destruct Hk as [Hne Hk].
  rewrite IH by done. by rewrite lookup_insert_ne.
Qed.

Lemma from_disk_map_lookup (l : list (Z * disk_entry F)) m n j k v :
  NoDup l.*1 → l !! j = Some (k, v) →
  from_disk_map l m n !! k = Some (Entry (de_text v) (de_audio_path v) (n + j)).
Proof.
  revert m n j. induction l as [|[k' v'] l IH]; intros m n j Hnd Hj; [done|].
  rewrite fmap_cons in Hnd. apply NoDup_cons in Hnd as [Hk' Hnd].
  destruct j as [|j]; cbn in *.
  - injection Hj as -> ->. rewrite from_disk_map_notin by done.
    by rewrite lookup_insert_eq, Nat.add_0_r.
  - rewrite (IH _ _ j) by done. do 2 f_equal. lia.
Qed.

(** The records a store finds when it is constructed from the document
    another wrote: the same ids, the same text and audio path, and for the
    segments a new list object with the same contents. *)
Lemma from_to_disk (w0 w : world F) (m : gmap Z entry) i e :
  m !! i = Some e →
  ∃ e', from_disk_map (to_disk w m) ∅ (length (lists w0)) !! i = Some e'
        ∧ text e' = text e ∧ audio_path e' = audio_path e
        ∧ length (lists w0) ≤ chunks e'
        ∧ (lists w0 ++ (de_chunks ∘ snd <$> to_disk w m)) !!! chunks e'
          = list_at w (chunks e).
Proof.
  intros Hi. apply elem_of_map_to_list, list_elem_of_lookup in Hi as [j Hj].
  assert (Hd : to_disk w m !! j
               = Some (i, DiskEntry (text e) (audio_path e) (list_at w (chunks e)))).
  { unfold to_disk. by rewrite list_lookup_fmap, Hj. }
  eexists. split.
  - eapply from_disk_map_lookup; [|exact Hd].
    rewrite to_disk_keys. apply NoDup_fst_map_to_list.
  - cbn. repeat split; [lia|].
    apply list_lookup_total_correct.
    rewrite lookup_app_r by lia.
    replace (length (lists w0) + j - length (lists w0)) with j by lia.
    by rewrite list_lookup_fmap, Hd.
Qed.

(** X8. Saving a store and constructing one from the same two paths gives back
    the metadata: the same [next_id], the same ids, and under every id a
    record with the same text and audio path whose segments are a new list
    object with the same contents. *)
Theorem metadata_roundtrip (s : t F) (w : world F) (dim : nat) :
  index_path s ≠ metadata_path s →
  os.dirname (index_path s) ≠ "" →
  ∃ s' w',
    __init__ dim (index_path s) (metadata_path s) (persist (s, w)).2.2 = (py.Ok s', w')
    ∧ next_id s' = next_id s
    ∧ dom (metadata s') = dom (metadata s)
    ∧ ∀ i e, metadata s !! i = Some e →
        ∃ e', metadata s' !! i = Some e'
              ∧ text e' = text e ∧ audio_path e' = audio_path e
              ∧ length (lists w) ≤ chunks e'
              ∧ list_at w' (chunks e') = list_at w (chunks e).
Proof.
  intros Hne Hd. rewrite persist_eq; cbn [snd].
  erewrite (init_load _ _ _ _ (index s) Hd); cbn.
  2:{ rewrite lookup_insert_ne by done. by rewrite lookup_insert_eq. }
  rewrite lookup_insert_eq. eexists _, _. split; [done|]. cbn.
  split; [done|]. split.
  - rewrite dom_from_disk_map, dom_empty_L, union_empty_l_L, to_disk_keys.
    symmetry. apply leibniz_equiv, dom_alt.
  - intros i e Hi.
    destruct (from_to_disk w w (metadata s) i e Hi) as (e' & He' & ? & ? & ? & Hl).
    exists e'. by repeat split.
Qed.

(** X9. Ids go on after a restart: on the store constructed from the files of
    another, [add] with a vector of the dimension of the index returns the
    [next_id] the other had. *)
Theorem add_after_reopen (s : t F) (w : world F) (dim : nat) (v : np.ndarray)
    (tx ap : string) (ch : option nat) :
  index_path s ≠ metadata_path s →
  os.dirname (index_path s) ≠ "" →
  np.shp v = np.Shape1 (IndexFlatL2.d (index s)) →
  ∃ s' w' st'',
    __init__ dim (index_path s) (metadata_path s) (persist (s, w)).2.2 = (py.Ok s', w')
    ∧ add v tx ap ch (s', w') = (py.Ok (next_id s), st'').
Proof.
  intros Hne Hd Hv. rewrite persist_eq; cbn [snd].
  erewrite (init_load _ _ _ _ (index s) Hd); cbn.
  2:{ rewrite lookup_insert_ne by done. by rewrite lookup_insert_eq. }
  rewrite lookup_insert_eq. eexists _, _, _. split; [done|].
  by rewrite add_eq, decide_True by (unfold as_matrix; by rewrite Hv).
Qed.

Lemma add_all_state (calls : list add_call) (s : t F) (w : world F) :
  Forall (λ c, np.shp (call_embedding c) = np.Shape1 (IndexFlatL2.d (index s))) calls →
  ∃ ids st, add_all calls (s, w) = (py.Ok ids, st)
    ∧ IndexFlatL2.ntotal (index st.1)
      = (IndexFlatL2.ntotal (index s) + Z.of_nat (length calls))%Z
    ∧ dimension st.1 = dimension s ∧ index_path st.1 = index_path s.
Proof.
  revert s w. induction calls as [|c calls IH]; intros s w Hall.
  - eexists _, _. split; [done|]. cbn. split; [lia|done].
  - apply Forall_cons in Hall as [Hc Hall]. cbn [add_all].
    unfold mbind, M_bind, py.bind.
    rewrite add_eq, decide_True by (unfold as_matrix; by rewrite Hc).
    destruct (IH (added s w (call_embedding c) (call_text c) (call_audio_path c)
                    (call_chunks c)).1
                 (added s w (call_embedding c) (call_text c) (call_audio_path c)
                    (call_chunks c)).2) as (ids & st & Ha & Hn & Hdim & Hip).
    { exact Hall. }
    rewrite <- surjective_pairing in Ha. rewrite Ha.
    eexists _, _. split; [done|]. cbn [fst snd].
    rewrite Hn, Hdim, Hip. unfold added, IndexFlatL2.ntotal; cbn.
    rewrite length_app, rows_length. unfold as_matrix. rewrite Hc; cbn.
    split; [lia|done].
Qed.

(** X10. After [n] calls of [add] with vectors on a store just created,
    [get_stats] reports [n] vectors, the dimension the store was created
    with, and its index path. *)
Theorem stats_after_adds (dim : nat) (ip mp : string) (w : world F)
    (s : t F) (w' : world F) (calls : list add_call) :
  files w !! ip = None →
  __init__ dim ip mp w = (py.Ok s, w') →
  Forall (λ c, np.shp (call_embedding c) = np.Shape1 dim) calls →
  ∃ ids st, add_all calls (s, w') = (py.Ok ids, st)
            ∧ get_stats st.1 = Stats (Z.of_nat (length calls)) dim ip.
Proof.
  intros Hf Hi Hall.
  destruct (decide (os.dirname ip = "")) as [Hd|Hd].
  { by rewrite (init_no_directory _ _ _ _ Hd) in Hi. }
  rewrite (init_fresh _ _ _ _ Hd Hf) in Hi. injection Hi as <- <-.
  destruct (add_all_state calls (Store dim ip mp ∅ 0 (IndexFlatL2.new dim))
              (set_files (λ fs, <[mp := JsonFile (Some 0%Z) (Some [])]> fs) w) Hall)
    as (ids & st & Ha & Hn & Hdim & Hip).
  exists ids, st. split; [done|].
  unfold get_stats. rewrite Hn, Hdim, Hip. cbn. f_equal.
Qed.

(** X11. Constructing a store where no index file is writes an empty metadata
    document, whatever the metadata file held: the records of a document
    left there are gone.  No other file is touched. *)
Theorem init_resets_metadata (dim : nat) (ip mp : string) (w : world F) :
  os.dirname ip ≠ "" → files w !! ip = None →
  ∃ s w',
    __init__ dim ip mp w = (py.Ok s, w')
    ∧ metadata s = ∅ ∧ next_id s = 0%Z
    ∧ files w' !! mp = Some (JsonFile (Some 0%Z) (Some []))
    ∧ ∀ p, p ≠ mp → files w' !! p = files w !! p.
Proof.
  intros Hd Hf. rewrite (init_fresh _ _ _ _ Hd Hf). eexists _, _.
  split; [done|]. cbn. repeat split.
  - by rewrite lookup_insert_eq.
  - intros p Hp. by rewrite lookup_insert_ne.
Qed.

(** X12. On a POSIX system, and failures of the operating system apart: a
    construction that raises has written nothing, and it raises for one of
    these reasons.  The index path has no directory part ([os.makedirs] on
    the empty name raises [FileNotFoundError]).  The file at the index path
    is not an index ([RuntimeError] of the reader).  Or the index is there
    and the metadata file is one [_load_metadata] cannot take: bytes that
    are not UTF-8 ([UnicodeDecodeError]), text that is not JSON
    ([JSONDecodeError]), the bytes of an index (one of these two, both a
    [ValueError]), a JSON document that is not an object or whose member
    [metadata] is not an object ([AttributeError]), or a key of [metadata]
    that is not an integer ([ValueError]). *)
Theorem init_raises (dim : nat) (ip mp : string) (w : world F)
    (e : py.exn) (w' : world F) :
  __init__ dim ip mp w = (py.Raise e, w') →
  w' = w
  ∧ ((e = py.FileNotFoundError ∧ os.dirname ip = "")
     ∨ (e = py.RuntimeError
        ∧ ∃ f, files w !! ip = Some f ∧ ∀ ix, f ≠ IndexFile ix)
     ∨ ∃ ix f, files w !! ip = Some (IndexFile ix) ∧ files w !! mp = Some f
        ∧ ((e = py.UnicodeDecodeError ∧ f = OtherFile)
           ∨ (e = py.JSONDecodeError ∧ f = TextFile)
           ∨ (e = py.ValueError ∧ ∃ ix', f = IndexFile ix')
           ∨ (e = py.AttributeError ∧ f = JsonValueFile)
           ∨ (e = py.AttributeError ∧ ∃ n, f = JsonMembersFile n)
           ∨ (e = py.ValueError ∧ ∃ n, f = JsonKeysFile n))).
Proof.
  intros Hi.
  destruct (decide (os.dirname ip = "")) as [Hd|Hd].
  { rewrite (init_no_directory _ _ _ _ Hd) in Hi. injection Hi as <- <-.
    split; [done|]. by left. }
  destruct (files w !! ip) as [f|] eqn:Hf.
  2:{ by rewrite (init_fresh _ _ _ _ Hd Hf) in Hi. }
  assert (Hu : (∀ ix, f ≠ IndexFile ix) →
               w' = w ∧ e = py.RuntimeError
               ∧ ∃ f', Some f = Some f' ∧ ∀ ix, f' ≠ IndexFile ix).
  { intros Hn. rewrite (init_unreadable _ _ _ _ _ Hd Hf Hn) in Hi.
    injection Hi as <- <-. split; [done|]. split; [done|]. by exists f. }
  destruct f as [ix|n m|n|n| | |];
    try (destruct Hu as (-> & -> & Hu); [done|]; split; [done|]; by right; left).
  clear Hu. rewrite (init_load _ _ _ _ _ Hd Hf) in Hi.
  destruct (files w !! mp) as [[ix'|n m|n|n| | |]|] eqn:Hm; try done;
    injection Hi as <- <-; (split; [done|]); right; right;
    eexists _, _; (split; [done|]); (split; [done|]).
  - right; right; left. split; [done|]. by eexists.
  - right; right; right; right; right. split; [done|]. by eexists.
  - right; right; right; right; left. split; [done|]. by eexists.
  - right; right; right; left. by split.
  - right; left. by split.
  - left. by split.
Qed.

(** X13. [chunks or []]: when [add] is given no list, or an empty one, the
    record gets a new empty list object, one that was not in the heap
    before, so not the list of the caller. *)
Theorem add_empty_chunks_fresh (s : t F) (w : world F) (a : np.ndarray)
    (tx ap : string) (ch : option nat) (i : Z) (s' : t F) (w' : world F) :
  (ch = None ∨ ∃ l, ch = Some l ∧ list_at w l = []) →
  add a tx ap ch (s, w) = (py.Ok i, (s', w')) →
  ∃ e, metadata s' !! i = Some e
       ∧ chunks e = length (lists w)
       ∧ lists w' = lists w ++ [[]].
Proof.
  intros Hch. rewrite add_eq. case_decide; [|done]. intros [= <- <- <-].
  unfold added; cbn. rewrite lookup_insert_eq. eexists. split; [done|]. cbn.
  destruct Hch as [->|(l & -> & Hl)]; cbn; [done|].
  assert (Hl' : list_at (renormed w a) l = []) by exact Hl.
  by rewrite Hl'.
Qed.

End Reopen.

Section MatrixQuery.
Context {F : Type} `{Arith F}.
Import FAISSVectorStore.
#[local] Arguments np.rows : simpl never.

Lemma formatted_list_same_lists (md : gmap Z entry) l (w1 w2 : world F) :
  lists w1 = lists w2 →
  (formatted_list md l w1).1 = (formatted_list md l w2).1.
Proof.
  revert w1 w2. induction l as [|[dist idx] l IH]; intros w1 w2 Hl; cbn; [done|].
  destruct (decide _); [by apply IH|]. cbn. f_equal.
  - unfold result_of. by rewrite Hl.
  - apply IH. unfold result_world. destruct (md !! idx); cbn; by rewrite ?Hl.
Qed.

Lemma rows_succ {A} n d (b : list A) :
  np.rows (S n) d b = take d b :: ((λ i, take d (drop (i * d) b)) <$> seq 1 n).
Proof. done. Qed.

(** The first row of a live matrix after normalisation in place. *)
Lemma matrix_first_row (w : world F) (a : np.ndarray) n d b :
  np.shp a = np.Shape2 (S n) d → holds w a b →
  ∃ rest, np.rows (S n) d (buffer (renormed w a) a)
          = IndexFlatL2.renorm (take d b) :: rest.
Proof.
  intros Ha [Hb Hlen]. rewrite (renormed_buffer _ _ _ Hb).
  unfold as_matrix. rewrite Ha in *; cbn [fst snd np.size] in *.
  rewrite (rows_succ n d b). rewrite fmap_cons. cbn [concat].
  rewrite rows_succ. eexists. f_equal.
  rewrite take_app_length'; [done|].
  rewrite renorm_length, length_take. lia.
Qed.

(** X14. [search] with a matrix of queries answers the first row only
    ([distances[0]], [indices[0]]): for a live matrix of one row or more
    whose rows have the width of the index, the result is the result of
    [search] with the first row as a vector; for a matrix without rows, the
    index into the answer of the library raises. *)
Theorem search_matrix_query (s : t F) (w : world F) (a : np.ndarray) (n : nat)
    (b : list F) (k : Z) :
  np.shp a = np.Shape2 n (IndexFlatL2.d (index s)) → holds w a b →
  (0 < Z.min k (IndexFlatL2.ntotal (index s)))%Z →
  match n with
  | 0 => (search a k (s, w)).1 = py.Raise py.IndexError
  | S _ => ∀ v, np.shp v = np.Shape1 (IndexFlatL2.d (index s)) →
                holds w v (take (IndexFlatL2.d (index s)) b) →
                (search a k (s, w)).1 = (search v k (s, w)).1
  end.
Proof.
  intros Ha Hb Hk.
  assert (Heq : search a k (s, w) =
    match np.rows n (IndexFlatL2.d (index s)) (buffer (renormed w a) a) with
    | [] => (py.Raise py.IndexError, (s, renormed w a))
    | q :: _ => formatted s (renormed w a) q (Z.min k (IndexFlatL2.ntotal (index s)))
    end).
  { rewrite search_eq; cbn zeta. rewrite decide_False by lia.
    rewrite decide_True by (unfold as_matrix; by rewrite Ha).
    rewrite (proj2 (Z.ltb_lt _ _)) by done.
    unfold as_matrix. by rewrite Ha. }
  rewrite Heq. destruct n as [|n]; [done|].
  intros v Hv Hbv.
  destruct (matrix_first_row w a n _ b Ha Hb) as [rest ->].
  rewrite (search_vector_holds _ _ _ _ _ Hv Hbv Hk).
  unfold formatted; cbn. f_equal. by apply formatted_list_same_lists.
Qed.

End MatrixQuery.

(** ** The endpoint [/search] *)

Section Endpoint.
Context {F : Type} `{Arith F}.
Variable strip : string → string.
Variable str : main.exception → string.
Variable embed : string → py.M (world F) np.ndarray.
Variable Response : Type.
Variable JSONResponse : main.content (F := F) → py.M (world F) Response.
Import FAISSVectorStore.

(** X15. An empty query, or one that [strip] leaves empty, is answered with the
    status 500 and not 400: the [HTTPException] with status 400 that the
    body raises is an [Exception], and the handler of the endpoint turns it
    into one with status 500.  The embedder and the store are not
    called. *)
Theorem search_endpoint_blank (q : string) (k : Z) (st : state F) :
  q = "" ∨ strip q = "" →
  main.search strip str embed Response JSONResponse q k st
  = (main.Raised (main.HTTPException 500
       (str (main.HTTPException 400 "Query cannot be empty"))), st).
Proof.
  intros Hq. unfold main.search, main.search_body.
  assert (Hb : bool_decide (q = "") || bool_decide (String.length (strip q) = 0) = true).
  { destruct Hq as [-> | ->]; [done|]. apply orb_true_r. }
  by rewrite Hb.
Qed.

(** X16. A negative [k] is not rejected by the endpoint: it reaches the library
    through [search], and the assertion that fails there is answered with
    the status 500.  The query has been embedded and the embedding
    normalised by then. *)
Theorem search_endpoint_negative_k (q : string) (k : Z) (s : t F) (w w1 : world F)
    (v : np.ndarray) :
  q ≠ "" → strip q ≠ "" →
  embed q w = (py.Ok v, w1) →
  np.shp v = np.Shape1 (IndexFlatL2.d (index s)) →
  (k < 0)%Z →
  main.search strip str embed Response JSONResponse q k (s, w)
  = (main.Raised (main.HTTPException 500 (str (main.PyException py.AssertionError))),
     (s, renormed w1 v)).
Proof.
  intros Hq Hs He Hv Hk. unfold main.search, main.search_body.
  rewrite bool_decide_eq_false_2 by done.
  rewrite bool_decide_eq_false_2 by (by destruct (strip q)).
  cbn [orb fst snd]. rewrite He.
  by rewrite (search_negative_count _ _ _ _ Hv Hk).
Qed.

Lemma search_vector_count (s : t F) (w : world F) (v : np.ndarray) (k : Z) :
  np.shp v = np.Shape1 (IndexFlatL2.d (index s)) → (0 ≤ k)%Z →
  ∃ rs w', search v k (s, w) = (py.Ok rs, (s, w'))
           ∧ Z.of_nat (length rs) = Z.min k (IndexFlatL2.ntotal (index s)).
Proof.
  intros Hv Hk.
  destruct (decide (Z.min k (IndexFlatL2.ntotal (index s)) = 0%Z)) as [Hz|Hz].
  - rewrite search_eq; cbn zeta. rewrite decide_True by done.
    eexists _, _. split; [done|]. by rewrite Hz.
  - assert (Hpos : (0 < Z.min k (IndexFlatL2.ntotal (index s)))%Z).
    { unfold IndexFlatL2.ntotal in *. lia. }
    rewrite (search_vector _ _ _ _ Hv Hpos). unfold formatted.
    eexists _, _. split; [done|].
    rewrite <- (length_fmap pair_of), formatted_list_pairs.
    + rewrite knn_length. lia.
    + apply knn_filled_labels. unfold IndexFlatL2.ntotal. lia.
Qed.

(** X17. For a query that is not blank, an embedding of the dimension of the
    index and a [k] that is not negative, the endpoint hands to
    [JSONResponse] the query as it came, [success] and the results of
    [search], [min(k, ntotal)] of them, with [num_results] their number; it
    answers what [JSONResponse] returns, or the status 500 when that
    raises.  The store object is the same after the call. *)
Theorem search_endpoint_answer (q : string) (k : Z) (s : t F) (w w1 : world F)
    (v : np.ndarray) :
  q ≠ "" → strip q ≠ "" →
  embed q w = (py.Ok v, w1) →
  np.shp v = np.Shape1 (IndexFlatL2.d (index s)) →
  (0 ≤ k)%Z →
  ∃ rs w2,
    search v k (s, w1) = (py.Ok rs, (s, w2))
    ∧ Z.of_nat (length rs) = Z.min k (IndexFlatL2.ntotal (index s))
    ∧ main.search strip str embed Response JSONResponse q k (s, w)
      = match JSONResponse (main.Content true q (length rs) rs) w2 with
        | (py.Ok r, w') => (main.Return r, (s, w'))
        | (py.Raise e, w') =>
            (main.Raised (main.HTTPException 500 (str (main.PyException e))), (s, w'))
        end.
Proof.
  intros Hq Hs He Hv Hk.
  destruct (search_vector_count s w1 v k Hv Hk) as (rs & w2 & Hsearch & Hlen).
  exists rs, w2. split; [done|]. split; [done|].
  unfold main.search, main.search_body.
  rewrite bool_decide_eq_false_2 by done.
  rewrite bool_decide_eq_false_2 by (by destruct (strip q)).
  cbn [orb fst snd]. rewrite He, Hsearch. cbn [fst snd].
  by destruct (JSONResponse _ _) as [[r|e] w'].
Qed.

End Endpoint.

(** ** Paths without a directory, and negative counts *)

Lemma head_nil_iff (p : string) :
  os.head p = "" ↔ ¬ In os.sep (list_ascii_of_string p).
Proof.
  induction p as [|c r IH]; cbn; [tauto|].
  destruct (os.head r) as [|c' h'].
  - destruct (Ascii.eqb_spec c os.sep) as [->|Hc]; split; try done.
    + intros Hn. destruct Hn. by left.
    + intros _ [Hc'|Hr]; [by subst|]. by apply IH.
  - split; [done|]. intros Hn. exfalso.
    assert (Hr : ¬ In os.sep (list_ascii_of_string r)) by tauto.
    by apply IH in Hr.
Qed.

Lemma rstrip_sep_nil_iff (s : string) :
  os.rstrip_sep s = "" ↔ os.all_sep s = true.
Proof.
  induction s as [|c r IH]; cbn; [done|].
  destruct (os.rstrip_sep r) as [|c' r'].
  - destruct (Ascii.eqb c os.sep); cbn; [tauto|]. split; done.
  - split; [done|]. intros [_ Hr]%andb_true_iff. by apply IH in Hr.
Qed.

Lemma dirname_nil_iff (p : string) :
  os.dirname p = "" ↔ ¬ In os.sep (list_ascii_of_string p).
Proof.
  rewrite <- head_nil_iff. unfold os.dirname.
  destruct (os.all_sep (os.head p)) eqn:Ha; [done|].
  split.
  - intros Hr. apply rstrip_sep_nil_iff in Hr. congruence.
  - intros Hh. rewrite Hh in Ha. done.
Qed.

Section Edges.
Context {F : Type} `{Arith F}.
Import FAISSVectorStore.

(** X18. On a POSIX system, where [/] is the only separator: an index path
    without a [/] names a file of the current directory; its directory name
    is empty and [os.makedirs] raises on it.  So the constructor raises
    [FileNotFoundError] on every such path, whatever the disk holds, and
    writes nothing. *)
Theorem init_bare_filename (dim : nat) (ip mp : string) (w : world F) :
  ¬ In os.sep (list_ascii_of_string ip) →
  __init__ dim ip mp w = (py.Raise py.FileNotFoundError, w).
Proof. intros Hp. apply init_no_directory. by apply dirname_nil_iff. Qed.

(** X19. A negative [k] is never clamped to zero: for every store, the empty one
    too, and every query, of the dimension of the index or not, [search]
    raises the assertion error of the library and returns no result.  The
    query has been normalised in place by then. *)
Theorem search_negative_k (s : t F) (w : world F) (a : np.ndarray) (k : Z) :
  (k < 0)%Z →
  search a k (s, w) = (py.Raise py.AssertionError, (s, renormed w a)).
Proof.
  intros Hk. rewrite search_eq; cbn zeta.
  assert (Hmin : Z.min k (IndexFlatL2.ntotal (index s)) = k).
  { unfold IndexFlatL2.ntotal. lia. }
  rewrite Hmin, decide_False by lia.
  case_decide; [|done].
  by rewrite (proj2 (Z.ltb_ge _ _)) by lia.
Qed.

End Edges.

(** ** The further properties on the sample data *)

Section MoreSamples.
Import FAISSVectorStore.

(** [add] of the two-by-two matrix: two vectors, one id. *)
Lemma add_rows_witness :
  ∃ st', add ex_mat "a" "p" None (ex_store, ex_created) = (py.Ok 0%Z, st')
  ∧ 0%Z = next_id ex_store
  ∧ IndexFlatL2.ntotal (index st'.1)
    = (IndexFlatL2.ntotal (index ex_store) + Z.of_nat (as_matrix ex_mat).1)%Z
  ∧ next_id st'.1 = (next_id ex_store + 1)%Z
  ∧ dom (metadata st'.1) = {[ 0%Z ]} ∪ dom (metadata ex_store)
  ∧ IndexFlatL2.d (index st'.1) = IndexFlatL2.d (index ex_store)
  ∧ dimension st'.1 = dimension ex_store
  ∧ index_path st'.1 = index_path ex_store
  ∧ metadata_path st'.1 = metadata_path ex_store.
Proof.
  assert (Ha : add ex_mat "a" "p" None (ex_store, ex_created)
               = (py.Ok 0%Z, (add ex_mat "a" "p" None (ex_store, ex_created)).2))
    by (vm_compute; reflexivity).
  exact (ex_intro _ _ (conj Ha (add_rows ex_store ex_created ex_mat "a" "p" None 0 _ Ha))).
Defined.

Lemma ex_added_eq :
  add ex_vec2 "a" "p" (Some 0) (ex_store, ex_created)
  = (py.Ok 0%Z, (ex_added.1, ex_added.2)).
Proof. vm_compute. reflexivity. Defined.

Lemma add_persists_witness :
  index_path ex_store ≠ metadata_path ex_store
  ∧ add ex_vec2 "a" "p" (Some 0) (ex_store, ex_created) = (py.Ok 0%Z, (ex_added.1, ex_added.2))
  ∧ faiss.read_index (index_path ex_added.1) ex_added.2
    = (py.Ok (index ex_added.1), ex_added.2)
  ∧ json.load (metadata_path ex_added.1) ex_added.2
    = (py.Ok (json.Object (Some (next_id ex_added.1))
                (Some (to_disk ex_added.2 (metadata ex_added.1)))),
       ex_added.2).
Proof.
  exact (conj ex_paths_differ (conj ex_added_eq
    (add_persists ex_store ex_created ex_vec2 "a" "p" (Some 0) 0 ex_added.1 ex_added.2
       ex_paths_differ ex_added_eq))).
Defined.

Lemma add_same_path_witness :
  index_path ex_store_one_path = metadata_path ex_store_one_path
  ∧ os.dirname (index_path ex_store_one_path) ≠ ""
  ∧ ∃ s' w',
      add ex_vec2 "a" "p" None (ex_store_one_path, ex_created) = (py.Ok 0%Z, (s', w'))
      ∧ files w' !! index_path s'
        = Some (JsonFile (Some (next_id s')) (Some (to_disk w' (metadata s'))))
      ∧ __init__ 2 (index_path s') (metadata_path s') w' = (py.Raise py.RuntimeError, w').
Proof.
  assert (Hp : index_path ex_store_one_path = metadata_path ex_store_one_path)
    by reflexivity.
  assert (Ha : add ex_vec2 "a" "p" None (ex_store_one_path, ex_created)
               = (py.Ok 0%Z,
                  ((add ex_vec2 "a" "p" None (ex_store_one_path, ex_created)).2.1,
                   (add ex_vec2 "a" "p" None (ex_store_one_path, ex_created)).2.2)))
    by (vm_compute; reflexivity).
  exact (conj Hp (conj ex_dirname (ex_intro _ _ (ex_intro _ _ (conj Ha
    (add_same_path ex_store_one_path ex_created ex_vec2 "a" "p" None 0 _ _ 2
       Hp ex_dirname Ha)))))).
Defined.

Lemma add_empty_chunks_fresh_witness :
  (@None nat = None ∨ ∃ l, None = Some l ∧ list_at ex_created l = [])
  ∧ ∃ s' w',
      add ex_vec2 "a" "p" None (ex_store, ex_created) = (py.Ok 0%Z, (s', w'))
      ∧ ∃ e, metadata s' !! 0%Z = Some e
             ∧ chunks e = length (lists ex_created)
             ∧ lists w' = lists ex_created ++ [[]].
Proof.
  assert (Hc : @None nat = None ∨ ∃ l, None = Some l ∧ list_at ex_created l = [])
    by (left; reflexivity).
  assert (Ha : add ex_vec2 "a" "p" None (ex_store, ex_created)
               = (py.Ok 0%Z,
                  ((add ex_vec2 "a" "p" None (ex_store, ex_created)).2.1,
                   (add ex_vec2 "a" "p" None (ex_store, ex_created)).2.2)))
    by (vm_compute; reflexivity).
  exact (conj Hc (ex_intro _ _ (ex_intro _ _ (conj Ha
    (add_empty_chunks_fresh ex_store ex_created ex_vec2 "a" "p" None 0 _ _ Hc Ha))))).
Defined.

Lemma search_result_fields_witness :
  ∃ r rs st',
    search ex_vec2 1 (ex_added.1, ex_added.2) = (py.Ok rs, st')
    ∧ r ∈ rs
    ∧ similarity_score r = fdiv f1 (fadd f1 (distance r))
    ∧ match metadata ex_added.1 !! id r with
      | Some e => res_text r = text e ∧ res_audio_path r = audio_path e
                  ∧ res_chunks r = chunks e
      | None => res_text r = "" ∧ res_audio_path r = ""
                ∧ length (lists ex_added.2) ≤ res_chunks r
                ∧ list_at st'.2 (res_chunks r) = []
      end.
Proof.
  assert (Hs : ∃ r st', search ex_vec2 1 (ex_added.1, ex_added.2) = (py.Ok [r], st')).
  { eexists _, _. vm_compute. reflexivity. }
  destruct Hs as (r & st' & Hs).
  assert (Hr : r ∈ [r]) by apply list_elem_of_here.
  exact (ex_intro _ r (ex_intro _ [r] (ex_intro _ st' (conj Hs (conj Hr
    (search_result_fields _ _ _ _ _ _ _ Hs Hr)))))).
Defined.

(** On the store that holds one vector, the two-by-two matrix as a query
    gives what its first row [1, 0] gives. *)
Lemma search_matrix_query_witness :
  np.shp ex_mat = np.Shape2 2 (IndexFlatL2.d (index ex_added.1))
  ∧ holds ex_added.2 ex_mat [ex_one; ex_zero; ex_zero; ex_one]
  ∧ (0 < Z.min 1 (IndexFlatL2.ntotal (index ex_added.1)))%Z
  ∧ np.shp ex_vec2 = np.Shape1 (IndexFlatL2.d (index ex_added.1))
  ∧ holds ex_added.2 ex_vec2 [ex_one; ex_zero]
  ∧ (search ex_mat 1 (ex_added.1, ex_added.2)).1
    = (search ex_vec2 1 (ex_added.1, ex_added.2)).1.
Proof.
  assert (Ha : np.shp ex_mat = np.Shape2 2 (IndexFlatL2.d (index ex_added.1)))
    by (vm_compute; reflexivity).
  assert (Hb : holds ex_added.2 ex_mat [ex_one; ex_zero; ex_zero; ex_one])
    by (split; vm_compute; reflexivity).
  assert (Hk : (0 < Z.min 1 (IndexFlatL2.ntotal (index ex_added.1)))%Z)
    by (vm_compute; reflexivity).
  assert (Hv : np.shp ex_vec2 = np.Shape1 (IndexFlatL2.d (index ex_added.1)))
    by (vm_compute; reflexivity).
  assert (Hbv : holds ex_added.2 ex_vec2 [ex_one; ex_zero])
    by (split; vm_compute; reflexivity).
  exact (conj Ha (conj Hb (conj Hk (conj Hv (conj Hbv
    (search_matrix_query ex_added.1 ex_added.2 ex_mat 2 _ 1 Ha Hb Hk ex_vec2 Hv Hbv)))))).
Defined.

Lemma search_negative_k_witness :
  (-3 < 0)%Z
  ∧ search ex_mat (-3) (ex_store, ex_created)
    = (py.Raise py.AssertionError, (ex_store, renormed ex_created ex_mat)).
Proof.
  assert (Hk : (-3 < 0)%Z) by reflexivity.
  exact (conj Hk (search_negative_k ex_store ex_created ex_mat (-3) Hk)).
Defined.

Lemma ex_added_paths_differ : index_path ex_added.1 ≠ metadata_path ex_added.1.
Proof. vm_compute. discriminate. Defined.

Lemma ex_added_dirname : os.dirname (index_path ex_added.1) ≠ "".
Proof. vm_compute. discriminate. Defined.

Lemma metadata_roundtrip_witness :
  index_path ex_added.1 ≠ metadata_path ex_added.1
  ∧ os.dirname (index_path ex_added.1) ≠ ""
  ∧ ∃ s' w',
      __init__ 7 (index_path ex_added.1) (metadata_path ex_added.1)
        (persist (ex_added.1, ex_added.2)).2.2 = (py.Ok s', w')
      ∧ next_id s' = next_id ex_added.1
      ∧ dom (metadata s') = dom (metadata ex_added.1)
      ∧ ∀ i e, metadata ex_added.1 !! i = Some e →
          ∃ e', metadata s' !! i = Some e'
                ∧ text e' = text e ∧ audio_path e' = audio_path e
                ∧ length (lists ex_added.2) ≤ chunks e'
                ∧ list_at w' (chunks e') = list_at ex_added.2 (chunks e).
Proof.
  exact (conj ex_added_paths_differ (conj ex_added_dirname
    (metadata_roundtrip ex_added.1 ex_added.2 7 ex_added_paths_differ ex_added_dirname))).
Defined.

Lemma add_after_reopen_witness :
  index_path ex_added.1 ≠ metadata_path ex_added.1
  ∧ os.dirname (index_path ex_added.1) ≠ ""
  ∧ np.shp ex_vec2 = np.Shape1 (IndexFlatL2.d (index ex_added.1))
  ∧ ∃ s' w' st'',
      __init__ 7 (index_path ex_added.1) (metadata_path ex_added.1)
        (persist (ex_added.1, ex_added.2)).2.2 = (py.Ok s', w')
      ∧ add ex_vec2 "b" "q" None (s', w') = (py.Ok (next_id ex_added.1), st'').
Proof.
  assert (Hv : np.shp ex_vec2 = np.Shape1 (IndexFlatL2.d (index ex_added.1)))
    by (vm_compute; reflexivity).
  exact (conj ex_added_paths_differ (conj ex_added_dirname (conj Hv
    (add_after_reopen ex_added.1 ex_added.2 7 ex_vec2 "b" "q" None
       ex_added_paths_differ ex_added_dirname Hv)))).
Defined.

Lemma stats_after_adds_witness :
  files ex_world !! ex_index_path = None
  ∧ __init__ 2 ex_index_path ex_metadata_path ex_world = (py.Ok ex_store, ex_created)
  ∧ Forall (λ c, np.shp (call_embedding c) = np.Shape1 2) ex_calls
  ∧ ∃ ids st, add_all ex_calls (ex_store, ex_created) = (py.Ok ids, st)
              ∧ get_stats st.1 = Stats (Z.of_nat (length ex_calls)) 2 ex_index_path.
Proof.
  assert (Hf : files ex_world !! ex_index_path = None) by reflexivity.
  assert (Hall : Forall (λ c, np.shp (call_embedding c) = np.Shape1 2) ex_calls)
    by (repeat constructor).
  exact (conj Hf (conj ex_construct (conj Hall
    (stats_after_adds 2 ex_index_path ex_metadata_path ex_world ex_store ex_created
       ex_calls Hf ex_construct Hall)))).
Defined.

(** The metadata document without an index file: its record is gone after
    the constructor ran. *)
Lemma init_resets_metadata_witness :
  os.dirname ex_index_path ≠ ""
  ∧ files ex_disk_orphan !! ex_index_path = None
  ∧ ∃ s w',
      __init__ 2 ex_index_path ex_metadata_path ex_disk_orphan = (py.Ok s, w')
      ∧ metadata s = ∅ ∧ next_id s = 0%Z
      ∧ files w' !! ex_metadata_path = Some (JsonFile (Some 0%Z) (Some []))
      ∧ ∀ p, p ≠ ex_metadata_path → files w' !! p = files ex_disk_orphan !! p.
Proof.
  assert (Hf : files ex_disk_orphan !! ex_index_path = None)
    by (vm_compute; reflexivity).
  exact (conj ex_dirname (conj Hf
    (init_resets_metadata 2 ex_index_path ex_metadata_path ex_disk_orphan ex_dirname Hf))).
Defined.

(** The index file next to the JSON document [[]]. *)
Lemma init_raises_witness :
  __init__ 2 ex_index_path ex_metadata_path ex_disk_list
    = (py.Raise py.AttributeError, ex_disk_list)
  ∧ ex_disk_list = ex_disk_list
  ∧ ((py.AttributeError = py.FileNotFoundError ∧ os.dirname ex_index_path = "")
     ∨ (py.AttributeError = py.RuntimeError
        ∧ ∃ f, files ex_disk_list !! ex_index_path = Some f ∧ ∀ ix, f ≠ IndexFile ix)
     ∨ ∃ ix f, files ex_disk_list !! ex_index_path = Some (IndexFile ix)
        ∧ files ex_disk_list !! ex_metadata_path = Some f
        ∧ ((py.AttributeError = py.UnicodeDecodeError ∧ f = OtherFile)
           ∨ (py.AttributeError = py.JSONDecodeError ∧ f = TextFile)
           ∨ (py.AttributeError = py.ValueError ∧ ∃ ix', f = IndexFile ix')
           ∨ (py.AttributeError = py.AttributeError ∧ f = JsonValueFile)
           ∨ (py.AttributeError = py.AttributeError ∧ ∃ n, f = JsonMembersFile n)
           ∨ (py.AttributeError = py.ValueError ∧ ∃ n, f = JsonKeysFile n))).
Proof.
  assert (Hi : __init__ 2 ex_index_path ex_metadata_path ex_disk_list
               = (py.Raise py.AttributeError, ex_disk_list))
    by (vm_compute; reflexivity).
  exact (conj Hi (init_raises 2 ex_index_path ex_metadata_path ex_disk_list _ _ Hi)).
Defined.

Lemma init_bare_filename_witness :
  ¬ In os.sep (list_ascii_of_string "faiss.index")
  ∧ __init__ 2 "faiss.index" ex_metadata_path ex_world
    = (py.Raise py.FileNotFoundError, ex_world).
Proof.
  assert (Hp : ¬ In os.sep (list_ascii_of_string "faiss.index")).
  { cbn. intros Hin. repeat (destruct Hin as [Hin|Hin]; [discriminate Hin|]). exact Hin. }
  exact (conj Hp (init_bare_filename 2 "faiss.index" ex_metadata_path ex_world Hp)).
Defined.

Lemma search_endpoint_blank_witness :
  ("  " = "" ∨ ex_strip "  " = "")
  ∧ main.search ex_strip ex_str ex_embed _ ex_JSONResponse "  " 5 (ex_added.1, ex_added.2)
    = (main.Raised (main.HTTPException 500
         (ex_str (main.HTTPException 400 "Query cannot be empty"))),
       (ex_added.1, ex_added.2)).
Proof.
  assert (Hq : "  " = "" ∨ ex_strip "  " = "") by (right; reflexivity).
  exact (conj Hq (search_endpoint_blank ex_strip ex_str ex_embed _ ex_JSONResponse
    "  " 5 (ex_added.1, ex_added.2) Hq)).
Defined.

Lemma ex_query_nonblank : "birds" ≠ "" ∧ ex_strip "birds" ≠ "".
Proof. split; discriminate. Defined.

Lemma search_endpoint_negative_k_witness :
  "birds" ≠ "" ∧ ex_strip "birds" ≠ ""
  ∧ ex_embed "birds" ex_added.2 = (py.Ok ex_vec2, ex_added.2)
  ∧ np.shp ex_vec2 = np.Shape1 (IndexFlatL2.d (index ex_added.1))
  ∧ (-1 < 0)%Z
  ∧ main.search ex_strip ex_str ex_embed _ ex_JSONResponse "birds" (-1)
      (ex_added.1, ex_added.2)
    = (main.Raised (main.HTTPException 500
         (ex_str (main.PyException py.AssertionError))),
       (ex_added.1, renormed ex_added.2 ex_vec2)).
Proof.
  assert (He : ex_embed "birds" ex_added.2 = (py.Ok ex_vec2, ex_added.2)) by reflexivity.
  assert (Hv : np.shp ex_vec2 = np.Shape1 (IndexFlatL2.d (index ex_added.1)))
    by (vm_compute; reflexivity).
  assert (Hk : (-1 < 0)%Z) by reflexivity.
  exact (conj (proj1 ex_query_nonblank) (conj (proj2 ex_query_nonblank)
    (conj He (conj Hv (conj Hk
      (search_endpoint_negative_k ex_strip ex_str ex_embed _ ex_JSONResponse
         "birds" (-1) ex_added.1 ex_added.2 ex_added.2 ex_vec2
         (proj1 ex_query_nonblank) (proj2 ex_query_nonblank) He Hv Hk)))))).
Defined.

Lemma search_endpoint_answer_witness :
  "birds" ≠ "" ∧ ex_strip "birds" ≠ ""
  ∧ ex_embed "birds" ex_added.2 = (py.Ok ex_vec2, ex_added.2)
  ∧ np.shp ex_vec2 = np.Shape1 (IndexFlatL2.d (index ex_added.1))
  ∧ (0 ≤ 5)%Z
  ∧ ∃ rs w2,
      search ex_vec2 5 (ex_added.1, ex_added.2) = (py.Ok rs, (ex_added.1, w2))
      ∧ Z.of_nat (length rs) = Z.min 5 (IndexFlatL2.ntotal (index ex_added.1))
      ∧ main.search ex_strip ex_str ex_embed _ ex_JSONResponse "birds" 5
          (ex_added.1, ex_added.2)
        = match ex_JSONResponse (main.Content true "birds" (length rs) rs) w2 with
          | (py.Ok r, w') => (main.Return r, (ex_added.1, w'))
          | (py.Raise e, w') =>
              (main.Raised (main.HTTPException 500 (ex_str (main.PyException e))),
               (ex_added.1, w'))
          end.
Proof.
  assert (He : ex_embed "birds" ex_added.2 = (py.Ok ex_vec2, ex_added.2)) by reflexivity.
  assert (Hv : np.shp ex_vec2 = np.Shape1 (IndexFlatL2.d (index ex_added.1)))
    by (vm_compute; reflexivity).
  assert (Hk : (0 ≤ 5)%Z) by discriminate.
  exact (conj (proj1 ex_query_nonblank) (conj (proj2 ex_query_nonblank)
    (conj He (conj Hv (conj Hk
      (search_endpoint_answer ex_strip ex_str ex_embed _ ex_JSONResponse
         "birds" 5 ex_added.1 ex_added.2 ex_added.2 ex_vec2
         (proj1 ex_query_nonblank) (proj2 ex_query_nonblank) He Hv Hk)))))).
Defined.

End MoreSamples.
